(** * Verification of fast_civitai_lora_loader.py

    A shallow embedding of the resolve / fetch / cache pipeline of the
    fast CivitAI LoRA loader: the identifier parser [_parse_lora_air], the
    download history (ledger) [_load_history], [_find_cached_entry] and
    [_record_entry], the registry client and the download executor of
    [FastCivitAIDownloader], and the node entry point
    [CivitAI_Fast_LORA_Loader.load_fast_lora].

    Python text is modelled as [string] (ASCII characters); bytes read from
    the history file as [list Byte.byte]. *)

From Stdlib Require Import ZArith Lia Ascii String List Bool.
From stdpp Require Import gmap strings.
Import ListNotations.
Open Scope Z_scope.

(* ------------------------------------------------------------------ *)
(** ** Python exceptions and results *)

Inductive exn :=
| ValueError (msg : string)
| RuntimeError (msg : string)
| OSErr (msg : string)
| RequestException (msg : string)
| CalledProcessError (msg : string)
| FileNotFoundError (msg : string)
| UnicodeDecodeError (msg : string)
| OtherError (msg : string).

(** [str(error)] *)
Definition exn_str (e : exn) : string :=
  match e with
  | ValueError m | RuntimeError m | OSErr m | RequestException m
  | CalledProcessError m | FileNotFoundError m | UnicodeDecodeError m
  | OtherError m => m
  end.

Definition is_runtime_error (e : exn) : bool :=
  match e with RuntimeError _ => true | _ => false end.

Inductive PyResult (A : Type) := Ok (a : A) | Err (e : exn).
Arguments Ok {A} a.
Arguments Err {A} e.

(* ------------------------------------------------------------------ *)
(** ** String helpers (Python [str] methods) *)

Definition chr (n : nat) : ascii := ascii_of_nat n.

(** [str.isspace] on ASCII: \t \n \x0b \x0c \r \x1c-\x1f and space. *)
Definition is_space (c : ascii) : bool :=
  let n := nat_of_ascii c in
  ((9 <=? n) && (n <=? 13))%nat || ((28 <=? n) && (n <=? 32))%nat.

Fixpoint lstrip_by (p : ascii -> bool) (s : string) : string :=
  match s with
  | EmptyString => EmptyString
  | String c s' => if p c then lstrip_by p s' else s
  end.

Fixpoint str_rev (s : string) : string :=
  match s with
  | EmptyString => EmptyString
  | String c s' => str_rev s' ++ String c EmptyString
  end.

Definition rstrip_by (p : ascii -> bool) (s : string) : string :=
  str_rev (lstrip_by p (str_rev s)).

(** [s.strip()] and [s.strip(chars)] *)
Definition strip_by (p : ascii -> bool) (s : string) : string :=
  rstrip_by p (lstrip_by p s).

Definition py_strip (s : string) : string := strip_by is_space s.

(** [s.split(sep, 1)] for a one-character separator. *)
Fixpoint split_once (sep : ascii) (s : string) : string * option string :=
  match s with
  | EmptyString => (EmptyString, None)
  | String c s' =>
      if Ascii.eqb c sep then (EmptyString, Some s')
      else let '(l, r) := split_once sep s' in (String c l, r)
  end.

(** [sub in s] *)
Definition str_contains (sub s : string) : bool :=
  match index 0 sub s with Some _ => true | None => false end.

(* ------------------------------------------------------------------ *)
(** ** Decimal integers: [str(n)] and [int(s)] *)

Definition digit_char (d : Z) : ascii := chr (Z.to_nat (48 + d)).

Definition char_digit (c : ascii) : option Z :=
  let n := Z.of_nat (nat_of_ascii c) in
  if (48 <=? n) && (n <=? 57) then Some (n - 48) else None.

(** Decimal digits of [n], most significant first; [fuel] bounds the
    number of divisions. *)
Fixpoint n_digits (fuel : nat) (n : Z) : list Z :=
  match fuel with
  | O => []
  | S f => if n <? 10 then [n] else n_digits f (n / 10) ++ [n mod 10]
  end.

Definition digits_string (ds : list Z) : string :=
  fold_right (fun d s => String (digit_char d) s) EmptyString ds.

(** [str(n)] for a Python int. *)
Definition int_repr (z : Z) : string :=
  let body := digits_string (n_digits (S (Z.to_nat (Z.abs z))) (Z.abs z)) in
  if z <? 0 then String "-" body else body.

(** The digit part of [int(s)]: digits, single underscores allowed between
    digits; [acc] is the value read so far. *)
Fixpoint int_digits (s : string) (acc : Z) : option Z :=
  match s with
  | EmptyString => Some acc
  | String "_" (String c s') =>
      match char_digit c with
      | Some d => int_digits s' (acc * 10 + d)
      | None => None
      end
  | String c s' =>
      match char_digit c with
      | Some d => int_digits s' (acc * 10 + d)
      | None => None
      end
  end.

Definition int_unsigned (s : string) : option Z :=
  match s with
  | String c s' =>
      match char_digit c with
      | Some d => int_digits s' d
      | None => None
      end
  | EmptyString => None
  end.

(** [int(s)] on a [str] (base 10): surrounding whitespace, an optional
    sign, then digits; [None] is the [ValueError]. *)
Definition int_signed (s : string) : option Z :=
  match s with
  | String "-" s' => option_map Z.opp (int_unsigned s')
  | String "+" s' => int_unsigned s'
  | s' => int_unsigned s'
  end.

Definition py_int (s : string) : option Z := int_signed (py_strip s).

(** Helpers for the statements below. *)
Fixpoint str_forall (p : ascii -> bool) (s : string) : bool :=
  match s with
  | EmptyString => true
  | String c s' => p c && str_forall p s'
  end.

Definition not_at (c : ascii) : bool := negb (Ascii.eqb c "@").

Definition is_digit (d : Z) : Prop := 0 <= d < 10.

Definition digits_value (ds : list Z) (acc : Z) : Z :=
  fold_left (fun a d => a * 10 + d) ds acc.

(* ------------------------------------------------------------------ *)
(** ** [_parse_lora_air] *)

Definition parse_lora_air (lora_air : string) : PyResult (Z * option Z) :=
  if String.eqb lora_air "" then
    Err (ValueError "LORA AIR identifier required (ex: 12345@67890)")
  else
    let '(p0, p1) := split_once "@" (py_strip lora_air) in
    match py_int p0 with
    | None => Err (ValueError "Invalid model ID provided")
    | Some model_id =>
        match p1 with
        | Some r =>
            if String.eqb r "" then Ok (model_id, None)
            else match py_int r with
                 | Some v => Ok (model_id, Some v)
                 | None => Err (ValueError "Invalid version ID provided")
                 end
        | None => Ok (model_id, None)
        end
    end.


(* ------------------------------------------------------------------ *)
(** ** Paths and the file system *)

Definition ends_with_slash (s : string) : bool :=
  match str_rev s with String "/" _ => true | _ => false end.

(** [posixpath.join(a, b)] *)
Definition path_join (a b : string) : string :=
  match b with
  | String "/" _ => b
  | _ => if String.eqb a "" || ends_with_slash a then (a ++ b)%string
         else (a ++ "/" ++ b)%string
  end.

(** [posixpath.basename(p)]: the text after the last '/'. *)
Definition basename (p : string) : string :=
  str_rev (fst (split_once "/" (str_rev p))).

(** The file system: the list of existing paths. *)
Definition path_exists (fs : list string) (p : string) : bool :=
  existsb (String.eqb p) fs.

Definition fs_remove (fs : list string) (p : string) : list string :=
  List.filter (fun q => negb (String.eqb p q)) fs.

Definition fs_create (fs : list string) (p : string) : list string :=
  if path_exists fs p then fs else p :: fs.

(** Modelled from the spec: [utils.model_path] (the Path Resolver's
    [findExistingFile], not under src/): scans the configured directories
    in order and returns the path of the first one that holds a file of
    that name, or none. *)
Fixpoint model_path (fs : list string) (name : string) (paths : list string)
  : option string :=
  match paths with
  | [] => None
  | d :: ds =>
      let p := path_join d name in
      if path_exists fs p then Some p else model_path fs name ds
  end.

(* ------------------------------------------------------------------ *)
(** ** The download history (ledger)

    The JSON file of §6: a dict from [str(model_id)] to a list of version
    entries [{"id": ..., "files": [{"id": None, "name": ..., "downloadUrl": ...}]}].
    A key read with [.get] may be missing: such fields are [option]s. *)

Record FileRecord := {
  fr_id : option Z;
  fr_name : option string;
  fr_downloadUrl : option string
}.

Record VersionRecord := {
  vr_id : option Z;
  vr_files : option (list FileRecord)
}.

Abbreviation ledger := (gmap string (list VersionRecord)).

(** [a == b] on [Optional[int]] *)
Definition opt_eqb (a b : option Z) : bool :=
  match a, b with
  | Some x, Some y => Z.eqb x y
  | None, None => true
  | _, _ => false
  end.

(** Truthiness of an optional string ([None] and [""] are false). *)
Definition str_truthy (s : option string) : bool :=
  match s with Some n => negb (String.eqb n "") | None => false end.

(** [_find_cached_entry], inner loop over [entry.get("files", [])]. *)
Fixpoint first_cached_file (fs : list string) (lora_paths : list string)
    (files : list FileRecord) : option string :=
  match files with
  | [] => None
  | fd :: files' =>
      match fr_name fd with
      | Some name =>
          if String.eqb name "" then first_cached_file fs lora_paths files'
          else match model_path fs name lora_paths with
               | Some resolved =>
                   if String.eqb resolved "" then first_cached_file fs lora_paths files'
                   else Some name
               | None => first_cached_file fs lora_paths files'
               end
      | None => first_cached_file fs lora_paths files'
      end
  end.

(** [_find_cached_entry], outer loop over the model's entries. *)
Fixpoint scan_entries (fs : list string) (lora_paths : list string)
    (version_id : option Z) (entries : list VersionRecord) : option string :=
  match entries with
  | [] => None
  | entry :: entries' =>
      if (match version_id with Some _ => true | None => false end) && negb (opt_eqb (vr_id entry) version_id) then
        scan_entries fs lora_paths version_id entries'
      else
        match first_cached_file fs lora_paths (default [] (vr_files entry)) with
        | Some name => Some name
        | None => scan_entries fs lora_paths version_id entries'
        end
  end.

Definition find_cached_entry (fs : list string) (lora_paths : list string)
    (history : ledger) (model_id : Z) (version_id : option Z) : option string :=
  scan_entries fs lora_paths version_id (default [] (history !! int_repr model_id)).

Definition new_file_record (file_name download_url : string) : FileRecord :=
  {| fr_id := None; fr_name := Some file_name; fr_downloadUrl := Some download_url |}.

(** The ledger lookup as the spec words it (used to state the refinement
    of [_find_cached_entry]): the names listed by the considered version
    records in order (all records when no version is requested, only those
    whose id equals it otherwise), and the first non-empty one the Path
    Resolver still finds on disk. *)
Definition listed_names (files : list FileRecord) : list string :=
  flat_map (fun fd => match fr_name fd with Some n => [n] | None => [] end) files.

Definition considered (version_id : option Z) (e : VersionRecord) : bool :=
  match version_id with
  | Some _ => opt_eqb (vr_id e) version_id
  | None => true
  end.

Definition spec_candidates (history : ledger) (model_id : Z) (version_id : option Z)
  : list string :=
  flat_map (fun e => if considered version_id e then listed_names (default [] (vr_files e)) else [])
    (default [] (history !! int_repr model_id)).

Definition still_on_disk (fs : list string) (lora_paths : list string) (name : string) : bool :=
  match model_path fs name lora_paths with
  | Some p => negb (String.eqb p "")
  | None => false
  end.

Definition spec_find_cached (fs : list string) (lora_paths : list string)
    (history : ledger) (model_id : Z) (version_id : option Z) : option string :=
  find (fun n => negb (String.eqb n "") && still_on_disk fs lora_paths n)
    (spec_candidates history model_id version_id).

(** [existing.get("name") == file_name] *)
Definition file_has_name (file_name : string) (fd : FileRecord) : bool :=
  match fr_name fd with Some n => String.eqb n file_name | None => false end.

(** [for existing in files: if existing.get("name") == file_name: return],
    then the append: [None] is the early return. *)
Definition add_file (files : list FileRecord) (file_name download_url : string)
  : option (list FileRecord) :=
  if existsb (file_has_name file_name) files
  then None
  else Some (files ++ [new_file_record file_name download_url]).

(** [files = version_entry.setdefault("files", [])] and the append. *)
Definition add_to_entry (entry : VersionRecord) (file_name download_url : string)
  : option VersionRecord :=
  match add_file (default [] (vr_files entry)) file_name download_url with
  | Some files => Some {| vr_id := vr_id entry; vr_files := Some files |}
  | None => None
  end.

(** The entry search of [_record_entry]: the first entry whose id equals
    [version_id] gets the file; without one, a new entry
    [{"id": version_id, "files": []}] is appended and gets it. [None] is
    the early return (the name is already listed). *)
Fixpoint record_in_entries (entries : list VersionRecord) (version_id : option Z)
    (file_name download_url : string) : option (list VersionRecord) :=
  match entries with
  | [] =>
      option_map (fun e => [e])
        (add_to_entry {| vr_id := version_id; vr_files := Some [] |} file_name download_url)
  | entry :: entries' =>
      if opt_eqb (vr_id entry) version_id then
        option_map (fun e => e :: entries') (add_to_entry entry file_name download_url)
      else
        option_map (cons entry) (record_in_entries entries' version_id file_name download_url)
  end.

(** The first version entry whose id equals [version_id]. *)
Definition find_version (entries : list VersionRecord) (version_id : option Z)
  : option VersionRecord :=
  find (fun e => opt_eqb (vr_id e) version_id) entries.

(** The file list of the version record of (model_id, version_id), if any. *)
Definition version_files (history : ledger) (model_id : Z) (version_id : option Z)
  : option (list FileRecord) :=
  option_map (fun e => default [] (vr_files e))
    (find_version (default [] (history !! int_repr model_id)) version_id).

(** [_record_entry]: the updated history, and whether [_save_history] was
    called with it. *)
Definition record_entry (history : ledger) (model_id : Z) (version_id : option Z)
    (file_name download_url : string) : ledger * bool :=
  let model_key := int_repr model_id in
  match record_in_entries (default [] (history !! model_key)) version_id file_name download_url with
  | Some entries => (<[model_key := entries]> history, true)
  | None => (history, false)
  end.

(* ------------------------------------------------------------------ *)
(** ** The outside world: registry, network, tools, file system *)

(** Registry JSON responses, as the code reads them with [.get]. *)
Record FileInfo := {
  fi_primary : bool;              (* truthiness of [item.get("primary")] *)
  fi_name : option string;
  fi_downloadUrl : option string
}.

Record VersionDetails := {
  vd_id : option Z;
  vd_files : option (list FileInfo);
  vd_downloadUrl : option string
}.

Record ModelDetails := {
  md_modelVersions : option (list VersionDetails)
}.

(** The answer to [session.get(url, params=..., timeout=...)]: a status
    and a body ([None] when [response.json()] raises), or an exception. *)
Inductive ApiResponse (A : Type) :=
| ApiResp (status : Z) (body : option A)
| ApiRaise (e : exn).
Arguments ApiResp {A} status body.
Arguments ApiRaise {A} e.

(** The answer to [session.head(url, allow_redirects=True, ...)]. *)
Inductive HeadResponse :=
| HeadResp (status : Z) (content_disposition : option string) (final_url : string)
| HeadRequestException (msg : string).

(** The answer to the streaming [session.get(url, stream=True, ...)]:
    [BodyRaise] is an exception raised while iterating the chunks. *)
Inductive StreamBody := BodyComplete | BodyRaise (e : exn).

Inductive StreamResponse :=
| StreamResp (status : Z) (body : StreamBody)
| StreamRaise (e : exn).

(** The outcome of [subprocess.run(command, check=True, ...)]: an exit code
    and whether the tool left a file at the destination; a missing
    executable; or another exception of [subprocess.run]. *)
Inductive ToolResult :=
| ToolExit (code : Z) (writes_destination : bool)
| ToolNotFound (msg : string)
| ToolRaise (e : exn).

(** Observable actions, newest first in the log. *)
Inductive Event :=
| EFetch (endpoint : string)         (* registry metadata request *)
| EHead (url : string)               (* filename probe *)
| EGet (url : string)                (* streaming download request *)
| EOpenWrite (path : string)         (* open(destination, "wb") *)
| ERemove (path : string)            (* os.remove attempt *)
| ERun (command : list string)       (* external downloader *)
| EMakedirs (dir : string)
| ESave (history : ledger).          (* _save_history *)

Record Env := {
  e_lora_paths : list string;                 (* LORA_PATHS *)
  e_short_paths : list (string * string);     (* short_paths_map(LORA_PATHS) *)
  e_env_token : option string;                (* os.environ.get("CIVITAI_API_TOKEN") *)
  e_history : PyResult ledger;                (* what _load_history() returns *)
  e_model_api : Z -> ApiResponse ModelDetails;        (* GET models/{id} *)
  e_version_api : Z -> ApiResponse VersionDetails;    (* GET model-versions/{id} *)
  e_head : string -> HeadResponse;
  e_get : string -> StreamResponse;
  e_which : string -> bool;                   (* shutil.which(tool) is not None *)
  e_run : list string -> ToolResult;
  e_can_remove : string -> bool               (* os.remove(p) does not raise OSError *)
}.

Record World := {
  w_fs : list string;
  w_log : list Event
}.

(** State and exception monad. *)
Definition M (A : Type) : Type := World -> PyResult A * World.

Definition ret {A} (a : A) : M A := fun w => (Ok a, w).
Definition raise {A} (e : exn) : M A := fun w => (Err e, w).
Definition bind {A B} (m : M A) (k : A -> M B) : M B :=
  fun w => match m w with
           | (Ok a, w') => k a w'
           | (Err e, w') => (Err e, w')
           end.

Notation "'let*' x := m 'in' k" := (bind m (fun x => k))
  (at level 200, x name, m at level 100, k at level 200).

(** [try: m except <exception matching p> as e: handler e] *)
Definition try_except {A} (m : M A) (p : exn -> bool) (handler : exn -> M A) : M A :=
  fun w => match m w with
           | (Err e, w') => if p e then handler e w' else (Err e, w')
           | r => r
           end.

Definition emit (ev : Event) : M unit :=
  fun w => (Ok tt, {| w_fs := w_fs w; w_log := ev :: w_log w |}).

Definition exists_m (p : string) : M bool :=
  fun w => (Ok (path_exists (w_fs w) p), w).

Definition create_m (p : string) : M unit :=
  fun w => (Ok tt, {| w_fs := fs_create (w_fs w) p; w_log := w_log w |}).

Section Program.
Context (E : Env).

(** [try: os.remove(p) except OSError: pass] *)
Definition remove_quietly (p : string) : M unit :=
  let* _ := emit (ERemove p) in
  fun w => (Ok tt, if e_can_remove E p
                   then {| w_fs := fs_remove (w_fs w) p; w_log := w_log w |}
                   else w).

(** [if os.path.exists(p): try: os.remove(p) except OSError: pass] *)
Definition remove_if_exists (p : string) : M unit :=
  let* ex := exists_m p in
  if ex then remove_quietly p else ret tt.

(* ------------------------------------------------------------------ *)
(** ** [FastCivitAIDownloader] *)

Record Downloader := {
  d_token : option string;
  d_download_dir : string;
  d_fallback : string;
  d_download_chunks : Z;
  d_prefer_tools_first : bool
}.

(** [__init__] (the timeout and the HTTP session are not modelled). *)
Definition mk_downloader (token : option string) (download_dir fallback : string)
    (download_chunks : Z) (prefer_tools_first : bool) : Downloader :=
  {| d_token := match option_map py_strip token with
                | Some t => if String.eqb t "" then None else Some t
                | None => None
                end;
     d_download_dir := download_dir;
     d_fallback := if String.eqb fallback "" then "aria2c" else fallback;
     d_download_chunks := Z.max 1 (if Z.eqb download_chunks 0 then 16 else download_chunks);
     d_prefer_tools_first := prefer_tools_first |}.

(** [_fetch]: the endpoint is logged, [api id] is the server's answer. *)
Definition fetch {A} (api : Z -> ApiResponse A) (endpoint : string) (id : Z) : M A :=
  let* _ := emit (EFetch endpoint) in
  match api id with
  | ApiRaise e => raise e
  | ApiResp status body =>
      if negb (Z.eqb status 200) then
        raise (RuntimeError ("API request failed with status " ++ int_repr status))
      else match body with
           | Some a => ret a
           | None => raise (RequestException "JSONDecodeError")
           end
  end.

(** [_with_token] *)
Definition with_token (d : Downloader) (url : string) : string :=
  match d_token d with
  | Some t =>
      if String.eqb t "" then url
      else if str_contains "token=" url then url
      else (url ++ (if str_contains "?" url then "&" else "?") ++ "token=" ++ t)%string
  | None => url
  end.

(** [s.split(marker, 1)[1]] when [marker in s]. *)
Definition after_marker (marker s : string) : string :=
  match index 0 marker s with
  | Some i => substring (i + String.length marker) (String.length s) s
  | None => ""
  end.

Definition dquote : ascii := ascii_of_nat 34.

(** [_probe_filename] *)
Definition probe_filename (url : string) : M (option string) :=
  let* _ := emit (EHead url) in
  match e_head E url with
  | HeadRequestException _ => ret None
  | HeadResp status content_disposition final_url =>
      if 400 <=? status then ret None
      else
        let from_header :=
          match content_disposition with
          | Some cd =>
              if negb (String.eqb cd "") && str_contains "filename=" cd then
                let name := strip_by (fun c => Ascii.eqb c dquote) (after_marker "filename=" cd) in
                if String.eqb name "" then None else Some name
              else None
          | None => None
          end in
        match from_header with
        | Some name => ret (Some name)
        | None => ret (Some (basename (if String.eqb final_url "" then url else final_url)))
        end
  end.

Definition placeholder_name (version_id : Z) : string :=
  ("civitai_model_" ++ int_repr version_id ++ ".safetensors")%string.

Definition download_template (version_id : Z) : string :=
  ("https://civitai.com/api/download/models/" ++ int_repr version_id)%string.

Abbreviation Resolved := (Z * option Z * string * string)%type.

(** [_resolve_from_version_only] *)
Definition resolve_from_version_only (d : Downloader) (model_id version_id : Z) : M Resolved :=
  let download_url := with_token d (download_template version_id) in
  let* probed := probe_filename download_url in
  let file_name := if str_truthy probed then default "" probed else placeholder_name version_id in
  ret (model_id, Some version_id, file_name, download_url).

(** [next((item for item in files if item.get("primary")), first)] *)
Definition select_file (files : list FileInfo) (first : FileInfo) : FileInfo :=
  match find fi_primary files with Some f => f | None => first end.

(** [a or b] on optional strings. *)
Definition str_or (a b : option string) : option string :=
  if str_truthy a then a else b.

(** Lines 125-134 of [_resolve_download], once [details] is known. *)
Definition resolve_with_details (d : Downloader) (model_id : Z) (version_id : option Z)
    (details : VersionDetails) : M Resolved :=
  let files := default [] (vd_files details) in
  match files with
  | [] => raise (RuntimeError "Model version has no downloadable files")
  | first :: _ =>
      let primary_file := select_file files first in
      let download_url := str_or (fi_downloadUrl primary_file) (vd_downloadUrl details) in
      if negb (str_truthy download_url) then
        raise (RuntimeError "No download URL returned by CivitAI")
      else
        let u := default "" download_url in
        let file_name := if str_truthy (fi_name primary_file)
                         then default "" (fi_name primary_file) else basename u in
        ret (model_id, version_id, file_name, with_token d u)
  end.

(** [_resolve_download] *)
Definition resolve_download (d : Downloader) (model_id : Z) (version_id : option Z) : M Resolved :=
  let by_model :=
    let* details := fetch (e_model_api E) ("models/" ++ int_repr model_id) model_id in
    match default [] (md_modelVersions details) with
    | [] => raise (RuntimeError "Model has no versions available")
    | v0 :: _ => resolve_with_details d model_id (vd_id v0) v0
    end in
  match version_id with
  | Some v =>
      if Z.eqb v 0 then by_model
      else
        let* r := try_except
                    (let* details := fetch (e_version_api E) ("model-versions/" ++ int_repr v) v in
                     ret (inl details))
                    is_runtime_error
                    (fun _ => let* r := resolve_from_version_only d model_id v in ret (inr r)) in
        match r with
        | inl details => resolve_with_details d model_id version_id details
        | inr resolved => ret resolved
        end
  | None => by_model
  end.
(* ------------------------------------------------------------------ *)
(** ** The download executor *)

(** [posixpath.dirname(p)] *)
Definition dirname (p : string) : string :=
  match split_once "/" (str_rev p) with
  | (_, None) => ""
  | (_, Some rrest) =>
      let head := str_rev (String "/" rrest) in
      if str_forall (fun c => Ascii.eqb c "/") head then head
      else rstrip_by (fun c => Ascii.eqb c "/") head
  end.

Definition is_one_of (s : string) (l : list string) : bool :=
  existsb (String.eqb s) l.

(** [fallback_order] of [_external_commands] *)
Definition fallback_order (fallback : string) : list string :=
  let order :=
    (if is_one_of fallback ["auto"; "aria2c"] then ["aria2c"] else []) ++
    (if is_one_of fallback ["auto"; "wget"] then ["wget"] else []) ++
    (if is_one_of fallback ["auto"; "curl"] then ["curl"] else []) in
  if negb (is_one_of fallback ["auto"; "aria2c"; "wget"; "curl"; "requests_only"])
  then [fallback] else order.

(** The command line built for one tool. *)
Definition tool_command (d : Downloader) (tool url destination : string) : option (list string) :=
  let auth := match d_token d with
              | Some t => if String.eqb t "" then [] else ["--header"; "Authorization: Bearer " ++ t]%string
              | None => []
              end in
  if String.eqb tool "aria2c" then
    Some (["aria2c"; "--allow-overwrite=true"; "--auto-file-renaming=false";
           "-x"; int_repr (d_download_chunks d); "-s"; int_repr (d_download_chunks d);
           "-d"; dirname destination; "-o"; basename destination] ++ auth ++ [url])
  else if String.eqb tool "wget" then
    Some (["wget"; "-O"; destination; "--content-disposition"] ++ auth ++ [url])
  else if String.eqb tool "curl" then
    Some (["curl"; "-L"; url; "-o"; destination] ++
          match d_token d with
          | Some t => if String.eqb t "" then [] else ["-H"; "Authorization: Bearer " ++ t]%string
          | None => []
          end)
  else None.

(** [_external_commands]; tools [shutil.which] does not find are skipped. *)
Definition external_commands (d : Downloader) (url destination : string) : list (list string) :=
  if String.eqb (d_fallback d) "requests_only" then []
  else flat_map (fun tool => if e_which E tool
                             then match tool_command d tool url destination with
                                  | Some c => [c] | None => [] end
                             else [])
                (fallback_order (d_fallback d)).

(** [repr] of a list of strings, as in the [CalledProcessError] message. *)
Definition py_list_repr (l : list string) : string :=
  ("[" ++ String.concat ", " (map (fun s => "'" ++ s ++ "'") l) ++ "]")%string.

Definition called_process_error_msg (command : list string) (code : Z) : string :=
  ("Command '" ++ py_list_repr command ++ "' returned non-zero exit status " ++
   int_repr code ++ ".")%string.

(** The [for command in commands] loop: [None] when it returned (a tool
    succeeded), [Some error_messages] when it ran to the end. *)
Fixpoint run_commands (destination : string) (commands : list (list string))
    (error_messages : list string) : M (option (list string)) :=
  match commands with
  | [] => ret (Some error_messages)
  | command :: rest =>
      let* _ := emit (ERun command) in
      match e_run E command with
      | ToolExit code writes =>
          let* _ := (if writes then create_m destination else ret tt) in
          if Z.eqb code 0 then
            let* ex := exists_m destination in
            if ex then ret None else run_commands destination rest error_messages
          else
            let* _ := remove_if_exists destination in
            run_commands destination rest
              (error_messages ++ [called_process_error_msg command code])
      | ToolNotFound msg =>
          let* _ := remove_if_exists destination in
          run_commands destination rest (error_messages ++ [msg])
      | ToolRaise e => raise e
      end
  end.

(** [_download_with_external] *)
Definition download_with_external (d : Downloader) (url destination : string) : M unit :=
  let* _ := remove_if_exists destination in
  match external_commands d url destination with
  | [] => raise (RuntimeError "No compatible external downloader found (install aria2c, wget, or curl)")
  | commands =>
      let* r := run_commands destination commands [] in
      match r with
      | None => ret tt
      | Some [] => raise (RuntimeError "External download attempts failed")
      | Some error_messages => raise (RuntimeError (String.concat "; " error_messages))
      end
  end.

(** [_download_with_requests]: every exception removes the destination
    (best effort) and is re-raised. *)
Definition download_with_requests (d : Downloader) (url destination : string) : M unit :=
  try_except
    (let* _ := emit (EGet url) in
     match e_get E url with
     | StreamRaise e => raise e
     | StreamResp status body =>
         if negb (Z.eqb status 200) then raise (RuntimeError ("HTTP " ++ int_repr status))
         else
           let* _ := emit (EOpenWrite destination) in
           let* _ := create_m destination in
           match body with
           | BodyComplete => ret tt
           | BodyRaise e => raise e
           end
     end)
    (fun _ => true)
    (fun e => let* _ := remove_if_exists destination in raise e).

(** [download] *)
Definition download (d : Downloader) (model_id : Z) (version_id : option Z) : M (string * string) :=
  let* resolved := resolve_download d model_id version_id in
  let '(_, _, file_name, download_url) := resolved in
  let* _ := emit (EMakedirs (d_download_dir d)) in
  let destination := path_join (d_download_dir d) file_name in
  let* first := (if d_prefer_tools_first d then
                   try_except
                     (let* _ := download_with_external d download_url destination in ret (inl tt))
                     is_runtime_error
                     (fun error => ret (inr (Some error)))
                 else ret (inr None)) in
  match first with
  | inl _ => ret (file_name, download_url)
  | inr external_error =>
      try_except
        (let* _ := download_with_requests d download_url destination in
         ret (file_name, download_url))
        (fun _ => true)
        (fun primary_error =>
           if negb (d_prefer_tools_first d) then
             let* _ := download_with_external d download_url destination in
             ret (file_name, download_url)
           else match external_error with
                | None => raise primary_error
                | Some ee => raise (RuntimeError (exn_str ee ++ "; " ++ exn_str primary_error))
                end)
  end.

(* ------------------------------------------------------------------ *)
(** ** The node: [CivitAI_Fast_LORA_Loader.load_fast_lora] *)

(** [_resolve_download_path]; [LORA_PATHS[0]] raises on an empty list. *)
Definition resolve_download_path (download_path_key : option string) : M string :=
  let default_path := match e_lora_paths E with
                      | p :: _ => ret p
                      | [] => raise (OtherError "IndexError: list index out of range")
                      end in
  match download_path_key with
  | Some k =>
      if String.eqb k "" then default_path
      else match find (fun kv => String.eqb (fst kv) k) (e_short_paths E) with
           | Some kv => ret (snd kv)
           | None => default_path
           end
  | None => default_path
  end.

Record LoadArgs := {
  a_lora_air : string;
  a_lora_name : string;                 (* default 'none' *)
  a_api_key : string;                   (* default '' *)
  a_download_path : option string;      (* default None *)
  a_download_chunks : Z;                (* default 16 *)
  a_fallback_downloader : string        (* default "aria2c" *)
}.

Definition get_fs : M (list string) := fun w => (Ok (w_fs w), w).

(** Steps 4-9: download, then [_record_entry] (which saves only when it
    appends). *)
Definition download_and_record (a : LoadArgs) (model_id : Z) (version_id : option Z)
    (history : ledger) : M string :=
  let* resolved_path := resolve_download_path (a_download_path a) in
  let token := if String.eqb (a_api_key a) "" then e_env_token E else Some (a_api_key a) in
  let prefer_tools_first := negb (String.eqb (a_fallback_downloader a) "requests_only") in
  let downloader := mk_downloader token resolved_path (a_fallback_downloader a)
                      (a_download_chunks a) prefer_tools_first in
  let* r := download downloader model_id version_id in
  let '(file_name, download_url) := r in
  let '(history', saved) := record_entry history model_id version_id file_name download_url in
  let* _ := (if saved then emit (ESave history') else ret tt) in
  ret file_name.

Definition load_fast_lora (a : LoadArgs) : M string :=
  let lora_name := a_lora_name a in
  if negb (String.eqb lora_name "") && negb (String.eqb lora_name "none") then ret lora_name
  else
    match parse_lora_air (a_lora_air a) with
    | Err e => raise e
    | Ok (model_id, version_id) =>
        match e_history E with
        | Err e => raise e
        | Ok history =>
            let* fs := get_fs in
            let cached_name := find_cached_entry fs (e_lora_paths E) history model_id version_id in
            if str_truthy cached_name then ret (default "" cached_name)
            else download_and_record a model_id version_id history
        end
    end.

End Program.

(* ------------------------------------------------------------------ *)
(** ** [_load_history]: reading the history file

    [open(HISTORY_FILE, "r", encoding="utf-8")] decodes the bytes
    strictly as UTF-8 (with universal newlines), and [json.load] parses
    the text with the C scanner of the json module. Text is a list of
    code points. *)

#[local] Set Warnings "-register-all".

Inductive json :=
| JNull
| JBool (b : bool)
| JInt (z : Z)
| JFloat (lexeme : list Z)             (* float(...) of the lexeme *)
| JStr (s : list Z)
| JArr (l : list json)
| JObj (kvs : list (list Z * json)).

Definition in_range (lo x hi : Z) : bool := (lo <=? x) && (x <=? hi).

Definition utf8_cont (b : Z) : bool := in_range 128 b 191.

(** The strict "utf-8" codec: no overlong forms, no surrogates, nothing
    above U+10FFFF. [None] is the [UnicodeDecodeError]. *)
Fixpoint utf8_decode (bs : list Z) : option (list Z) :=
  match bs with
  | [] => Some []
  | b0 :: r0 =>
      if b0 <? 128 then option_map (cons b0) (utf8_decode r0)
      else if in_range 194 b0 223 then
        match r0 with
        | b1 :: r1 =>
            if utf8_cont b1
            then option_map (cons ((b0 - 192) * 64 + (b1 - 128))) (utf8_decode r1)
            else None
        | [] => None
        end
      else if in_range 224 b0 239 then
        match r0 with
        | b1 :: b2 :: r2 =>
            let lo := if b0 =? 224 then 160 else 128 in
            let hi := if b0 =? 237 then 159 else 191 in
            if in_range lo b1 hi && utf8_cont b2
            then option_map (cons ((b0 - 224) * 4096 + (b1 - 128) * 64 + (b2 - 128)))
                   (utf8_decode r2)
            else None
        | _ => None
        end
      else if in_range 240 b0 244 then
        match r0 with
        | b1 :: b2 :: b3 :: r3 =>
            let lo := if b0 =? 240 then 144 else 128 in
            let hi := if b0 =? 244 then 143 else 191 in
            if in_range lo b1 hi && utf8_cont b2 && utf8_cont b3
            then option_map (cons ((b0 - 240) * 262144 + (b1 - 128) * 4096 +
                                   (b2 - 128) * 64 + (b3 - 128)))
                   (utf8_decode r3)
            else None
        | _ => None
        end
      else None
  end.

(** Universal newlines: "\r\n" and "\r" read as "\n". *)
Fixpoint translate_newlines (t : list Z) : list Z :=
  match t with
  | 13 :: 10 :: r => 10 :: translate_newlines r
  | 13 :: r => 10 :: translate_newlines r
  | c :: r => c :: translate_newlines r
  | [] => []
  end.

Definition json_ws (c : Z) : bool := (c =? 32) || (c =? 9) || (c =? 10) || (c =? 13).

Fixpoint skip_ws (s : list Z) : list Z :=
  match s with
  | c :: r => if json_ws c then skip_ws r else s
  | [] => []
  end.

(** [s] starts with [lit]: the rest. *)
Fixpoint strip_prefix (lit s : list Z) : option (list Z) :=
  match lit, s with
  | [], _ => Some s
  | l :: lit', c :: s' => if l =? c then strip_prefix lit' s' else None
  | _ :: _, [] => None
  end.

Definition hex_val (c : Z) : option Z :=
  if in_range 48 c 57 then Some (c - 48)
  else if in_range 97 c 102 then Some (c - 87)
  else if in_range 65 c 70 then Some (c - 55)
  else None.

Definition hex4 (s : list Z) : option (Z * list Z) :=
  match s with
  | a :: b :: c :: d :: r =>
      match hex_val a, hex_val b, hex_val c, hex_val d with
      | Some x, Some y, Some z, Some w => Some (((x * 16 + y) * 16 + z) * 16 + w, r)
      | _, _, _, _ => None
      end
  | _ => None
  end.

Definition simple_escape (c : Z) : option Z :=
  if c =? 34 then Some 34 else if c =? 92 then Some 92 else if c =? 47 then Some 47
  else if c =? 98 then Some 8 else if c =? 102 then Some 12 else if c =? 110 then Some 10
  else if c =? 114 then Some 13 else if c =? 116 then Some 9 else None.

(** [scanstring] (strict): the text after the opening quote; [fuel]
    bounds the number of characters read. *)
Fixpoint scan_string (fuel : nat) (s : list Z) (acc : list Z) : option (list Z * list Z) :=
  match fuel with
  | O => None
  | S fuel' =>
  match s with
  | [] => None
  | c :: r =>
      if c =? 34 then Some (rev acc, r)
      else if c =? 92 then
        match r with
        | [] => None
        | e :: r' =>
            if e =? 117 then
              match hex4 r' with
              | None => None
              | Some (u, r'') =>
                  if in_range 55296 u 56319 then
                    match r'' with
                    | 92 :: 117 :: r3 =>
                        match hex4 r3 with
                        | None => None
                        | Some (u2, r4) =>
                            if in_range 56320 u2 57343
                            then scan_string fuel' r4 ((65536 + (u - 55296) * 1024 + (u2 - 56320)) :: acc)
                            else scan_string fuel' r'' (u :: acc)
                        end
                    | _ => scan_string fuel' r'' (u :: acc)
                    end
                  else scan_string fuel' r'' (u :: acc)
              end
            else match simple_escape e with
                 | Some x => scan_string fuel' r' (x :: acc)
                 | None => None
                 end
        end
      else if c <? 32 then None
      else scan_string fuel' r (c :: acc)
  end
  end.

Fixpoint take_digits (s : list Z) : list Z * list Z :=
  match s with
  | c :: r => if in_range 48 c 57 then let '(ds, r') := take_digits r in (c :: ds, r') else ([], s)
  | [] => ([], [])
  end.

(** [_match_number_unicode]: an optional minus; 0 or a non-zero digit and
    digits; optionally a dot and digits; optionally e or E, a sign and digits. *)
Definition scan_number (s : list Z) : option (json * list Z) :=
  let '(neg, s1) := match s with 45 :: r => (true, r) | _ => (false, s) end in
  let int_part :=
    match s1 with
    | 48 :: r => Some ([48], r)
    | c :: _ => if in_range 49 c 57 then Some (take_digits s1) else None
    | [] => None
    end in
  match int_part with
  | None => None
  | Some (ip, s2) =>
      let '(frac, s3) := match s2 with
                         | 46 :: r => match take_digits r with
                                      | ([], _) => ([], s2)
                                      | (ds, r') => (46 :: ds, r')
                                      end
                         | _ => ([], s2)
                         end in
      let '(ex, s4) := match s3 with
                       | e :: r =>
                           if (e =? 101) || (e =? 69) then
                             let '(sg, r1) := match r with
                                              | 43 :: r1 => ([43], r1)
                                              | 45 :: r1 => ([45], r1)
                                              | _ => ([], r)
                                              end in
                             match take_digits r1 with
                             | ([], _) => ([], s3)
                             | (ds, r2) => (e :: sg ++ ds, r2)
                             end
                           else ([], s3)
                       | [] => ([], s3)
                       end in
      let lexeme := (if neg then [45] else []) ++ ip ++ frac ++ ex in
      match frac, ex with
      | [], [] =>
          let v := fold_left (fun a d => a * 10 + (d - 48)) ip 0 in
          Some (JInt (if neg then - v else v), s4)
      | _, _ => Some (JFloat lexeme, s4)
      end
  end.

(** [d[key] = value] on the dict being built. *)
Fixpoint obj_set (kvs : list (list Z * json)) (k : list Z) (v : json) : list (list Z * json) :=
  match kvs with
  | [] => [(k, v)]
  | (k', v') :: r => if decide (k = k') then (k, v) :: r else (k', v') :: obj_set r k v
  end.

Definition lit_null : list Z := [110; 117; 108; 108].
Definition lit_true : list Z := [116; 114; 117; 101].
Definition lit_false : list Z := [102; 97; 108; 115; 101].
Definition lit_nan : list Z := [78; 97; 78].
Definition lit_infinity : list Z := [73; 110; 102; 105; 110; 105; 116; 121].

(** [scan_once], [_parse_object] and [_parse_array]; [fuel] bounds the
    nesting (every call reads at least one character). *)
Fixpoint scan_once (fuel : nat) (s : list Z) {struct fuel} : option (json * list Z) :=
  match fuel with
  | O => None
  | S fuel' =>
      match s with
      | [] => None
      | c :: r =>
          if c =? 34 then
            option_map (fun '(str, r') => (JStr str, r')) (scan_string (S (length r)) r [])
          else if c =? 123 then
            match skip_ws r with
            | 125 :: r' => Some (JObj [], r')
            | r' => parse_members fuel' r' []
            end
          else if c =? 91 then
            match skip_ws r with
            | 93 :: r' => Some (JArr [], r')
            | r' => parse_elements fuel' r' []
            end
          else match strip_prefix lit_null s with Some r' => Some (JNull, r') | None =>
               match strip_prefix lit_true s with Some r' => Some (JBool true, r') | None =>
               match strip_prefix lit_false s with Some r' => Some (JBool false, r') | None =>
               match strip_prefix lit_nan s with Some r' => Some (JFloat lit_nan, r') | None =>
               match strip_prefix lit_infinity s with Some r' => Some (JFloat lit_infinity, r') | None =>
               match strip_prefix (45 :: lit_infinity) s with
               | Some r' => Some (JFloat (45 :: lit_infinity), r')
               | None => scan_number s
               end end end end end end
      end
  end
with parse_members (fuel : nat) (s : list Z) (acc : list (list Z * json)) {struct fuel}
  : option (json * list Z) :=
  match fuel with
  | O => None
  | S fuel' =>
      match s with
      | 34 :: r =>
          match scan_string (S (length r)) r [] with
          | None => None
          | Some (key, r1) =>
              match skip_ws r1 with
              | 58 :: r2 =>
                  match scan_once fuel' (skip_ws r2) with
                  | None => None
                  | Some (value, r3) =>
                      let acc' := obj_set acc key value in
                      match skip_ws r3 with
                      | 125 :: r4 => Some (JObj acc', r4)
                      | 44 :: r4 => parse_members fuel' (skip_ws r4) acc'
                      | _ => None
                      end
                  end
              | _ => None
              end
          end
      | _ => None
      end
  end
with parse_elements (fuel : nat) (s : list Z) (acc : list json) {struct fuel}
  : option (json * list Z) :=
  match fuel with
  | O => None
  | S fuel' =>
      match scan_once fuel' s with
      | None => None
      | Some (value, r) =>
          match skip_ws r with
          | 93 :: r' => Some (JArr (rev (value :: acc)), r')
          | 44 :: r' => parse_elements fuel' (skip_ws r') (value :: acc)
          | _ => None
          end
      end
  end.

(** [json.loads]: a leading BOM is refused, then one value between
    whitespace and nothing after it. [None] is the [JSONDecodeError]. *)
Definition json_loads (t : list Z) : option json :=
  match t with
  | 65279 :: _ => None
  | _ =>
      match scan_once (2 * length t + 2) (skip_ws t) with
      | Some (v, r) => match skip_ws r with [] => Some v | _ => None end
      | None => None
      end
  end.

(** The history file: absent, failing to open or read with an [OSError],
    or present with these bytes. *)
Inductive HistoryFile :=
| HMissing
| HOSError (msg : string)
| HBytes (bytes : list Byte.byte).

(** [_load_history]: [except (OSError, json.JSONDecodeError): return {}];
    a [UnicodeDecodeError] of the text decoding propagates. *)
Definition load_history (f : HistoryFile) : PyResult json :=
  match f with
  | HMissing => Ok (JObj [])
  | HOSError _ => Ok (JObj [])
  | HBytes bytes =>
      match utf8_decode (map (fun b => Z.of_nat (Byte.to_nat b)) bytes) with
      | None => Err (UnicodeDecodeError "'utf-8' codec can't decode byte: invalid start byte")
      | Some text =>
          match json_loads (translate_newlines text) with
          | Some v => Ok v
          | None => Ok (JObj [])
          end
      end
  end.

(** ASCII text as code points. *)
Definition text_of (s : string) : list Z :=
  map (fun c => Z.of_nat (nat_of_ascii c)) (list_ascii_of_string s).

(* ------------------------------------------------------------------ *)
(** ** Concrete scenarios *)

Definition fx_dir : string := "/models/loras".
Definition fx_file : string := "style.safetensors".
Definition fx_dest : string := "/models/loras/style.safetensors".
Definition fx_url : string := "https://civitai.com/api/download/models/67890".

Definition fx_version (v : Z) : VersionDetails :=
  {| vd_id := Some v;
     vd_files := Some [{| fi_primary := true; fi_name := Some fx_file;
                          fi_downloadUrl := Some fx_url |}];
     vd_downloadUrl := None |}.

(** A registry that knows version 67890, no network token, no external
    tool installed, a direct download answering 404. *)
Definition fx_env : Env :=
  {| e_lora_paths := [fx_dir];
     e_short_paths := [("loras", fx_dir)];
     e_env_token := None;
     e_history := Ok ∅;
     e_model_api := fun _ => ApiResp 404 None;
     e_version_api := fun v => ApiResp 200 (Some (fx_version v));
     e_head := fun _ => HeadRequestException "unreachable";
     e_get := fun _ => StreamResp 404 BodyComplete;
     e_which := fun _ => false;
     e_run := fun _ => ToolNotFound "[Errno 2] No such file or directory";
     e_can_remove := fun _ => true |}.

(** The same, with a connection that breaks mid-stream, aria2c installed
    but failing, and a destination directory that does not allow
    unlinking (os.remove raises PermissionError). *)
Definition fx_env_locked : Env :=
  {| e_lora_paths := [fx_dir];
     e_short_paths := [("loras", fx_dir)];
     e_env_token := None;
     e_history := Ok ∅;
     e_model_api := fun _ => ApiResp 404 None;
     e_version_api := fun v => ApiResp 200 (Some (fx_version v));
     e_head := fun _ => HeadRequestException "unreachable";
     e_get := fun _ => StreamResp 200 (BodyRaise (RequestException "Connection broken"));
     e_which := fun t => String.eqb t "aria2c";
     e_run := fun _ => ToolExit 1 false;
     e_can_remove := fun _ => false |}.

Definition fx_downloader (fallback : string) (prefer_tools_first : bool) : Downloader :=
  mk_downloader None fx_dir fallback 16 prefer_tools_first.

(** A world where an earlier copy of the file is on disk. *)
Definition fx_world_with_file : World := {| w_fs := [fx_dest]; w_log := [] |}.
Definition fx_world_empty : World := {| w_fs := []; w_log := [] |}.

Definition fx_args (fallback : string) : LoadArgs :=
  {| a_lora_air := "12345@67890"; a_lora_name := "none"; a_api_key := "";
     a_download_path := None; a_download_chunks := 16; a_fallback_downloader := fallback |}.

(** A history recording [style.safetensors] for 12345@67890. *)
Definition fx_ledger : ledger :=
  {[ "12345"%string := [{| vr_id := Some 67890;
                           vr_files := Some [new_file_record fx_file fx_url] |}] ]}.

(** [fx_env] with that history. *)
Definition fx_env_cached : Env :=
  {| e_lora_paths := e_lora_paths fx_env;
     e_short_paths := e_short_paths fx_env;
     e_env_token := e_env_token fx_env;
     e_history := Ok fx_ledger;
     e_model_api := e_model_api fx_env;
     e_version_api := e_version_api fx_env;
     e_head := e_head fx_env;
     e_get := e_get fx_env;
     e_which := e_which fx_env;
     e_run := e_run fx_env;
     e_can_remove := e_can_remove fx_env |}.

(** [fx_env] whose version endpoint answers 404. *)
Definition fx_env_degraded : Env :=
  {| e_lora_paths := e_lora_paths fx_env;
     e_short_paths := e_short_paths fx_env;
     e_env_token := e_env_token fx_env;
     e_history := e_history fx_env;
     e_model_api := e_model_api fx_env;
     e_version_api := fun _ => ApiResp 404 None;
     e_head := e_head fx_env;
     e_get := e_get fx_env;
     e_which := e_which fx_env;
     e_run := e_run fx_env;
     e_can_remove := e_can_remove fx_env |}.

Definition fx_file_a : FileInfo :=
  {| fi_primary := false; fi_name := Some "A"; fi_downloadUrl := Some "https://example.org/a" |}.
Definition fx_file_b : FileInfo :=
  {| fi_primary := true; fi_name := Some "B"; fi_downloadUrl := Some "https://example.org/b" |}.

(** The arguments with an existing file named as an override. *)
Definition fx_args_override : LoadArgs :=
  {| a_lora_air := "12345@67890"; a_lora_name := fx_file; a_api_key := "";
     a_download_path := None; a_download_chunks := 16; a_fallback_downloader := "aria2c" |}.

(** The world [download] hands to its strategies: [os.makedirs] logged. *)
Definition after_makedirs (d : Downloader) (w : World) : World :=
  {| w_fs := w_fs w; w_log := EMakedirs (d_download_dir d) :: w_log w |}.


(** The environment without [CIVITAI_API_TOKEN]. *)
Definition without_env_token (E : Env) : Env :=
  {| e_lora_paths := e_lora_paths E;
     e_short_paths := e_short_paths E;
     e_env_token := None;
     e_history := e_history E;
     e_model_api := e_model_api E;
     e_version_api := e_version_api E;
     e_head := e_head E;
     e_get := e_get E;
     e_which := e_which E;
     e_run := e_run E;
     e_can_remove := e_can_remove E |}.

(** The node arguments with another [api_key]. *)
Definition with_api_key (a : LoadArgs) (key : string) : LoadArgs :=
  {| a_lora_air := a_lora_air a; a_lora_name := a_lora_name a; a_api_key := key;
     a_download_path := a_download_path a; a_download_chunks := a_download_chunks a;
     a_fallback_downloader := a_fallback_downloader a |}.


(** [fx_env] with aria2c and curl installed, every tool run succeeding and
    writing the destination, and the direct download answering 200. *)
Definition fx_env_tools_ok : Env :=
  {| e_lora_paths := e_lora_paths fx_env;
     e_short_paths := e_short_paths fx_env;
     e_env_token := e_env_token fx_env;
     e_history := e_history fx_env;
     e_model_api := e_model_api fx_env;
     e_version_api := e_version_api fx_env;
     e_head := e_head fx_env;
     e_get := fun _ => StreamResp 200 BodyComplete;
     e_which := fun t => (String.eqb t "aria2c" || String.eqb t "curl")%bool;
     e_run := fun _ => ToolExit 0 true;
     e_can_remove := e_can_remove fx_env |}.


(** [fx_env] with aria2c installed, [subprocess.run] raising an [OSError]
    (permission denied, say). *)
Definition fx_env_tools_oserror : Env :=
  {| e_lora_paths := e_lora_paths fx_env;
     e_short_paths := e_short_paths fx_env;
     e_env_token := e_env_token fx_env;
     e_history := e_history fx_env;
     e_model_api := e_model_api fx_env;
     e_version_api := e_version_api fx_env;
     e_head := e_head fx_env;
     e_get := e_get fx_env;
     e_which := fun t => String.eqb t "aria2c";
     e_run := fun _ => ToolRaise (OSErr "[Errno 13] Permission denied");
     e_can_remove := e_can_remove fx_env |}.

(** [fx_env] whose HEAD request names the file in Content-Disposition. *)
Definition fx_cd_name : string := "lora_v2.safetensors".
Definition fx_env_head : Env :=
  {| e_lora_paths := e_lora_paths fx_env;
     e_short_paths := e_short_paths fx_env;
     e_env_token := e_env_token fx_env;
     e_history := e_history fx_env;
     e_model_api := e_model_api fx_env;
     e_version_api := e_version_api fx_env;
     e_head := fun u => HeadResp 200
                 (Some ("attachment; filename=" ++ String dquote (fx_cd_name ++ String dquote ""))%string) u;
     e_get := e_get fx_env;
     e_which := e_which fx_env;
     e_run := e_run fx_env;
     e_can_remove := e_can_remove fx_env |}.

(** [fx_env] with a network token in the environment. *)
Definition fx_env_token : Env :=
  {| e_lora_paths := e_lora_paths fx_env;
     e_short_paths := e_short_paths fx_env;
     e_env_token := Some "env-secret";
     e_history := e_history fx_env;
     e_model_api := e_model_api fx_env;
     e_version_api := e_version_api fx_env;
     e_head := e_head fx_env;
     e_get := e_get fx_env;
     e_which := e_which fx_env;
     e_run := e_run fx_env;
     e_can_remove := e_can_remove fx_env |}.
Example parse_ex1 : parse_lora_air "12345@67890" = Ok (12345, Some 67890).
Proof. reflexivity. Qed.
Example parse_ex2 : parse_lora_air " -7@ " = Ok (-7, None).
Proof. reflexivity. Qed.
Example parse_ex3 : parse_lora_air "1_000@x" = Err (ValueError "Invalid version ID provided").
Proof. reflexivity. Qed.
Example parse_ex4 : parse_lora_air "1@2@3" = Err (ValueError "Invalid version ID provided").
Proof. reflexivity. Qed.
Example repr_ex : int_repr (-1203) = "-1203"%string.
Proof. reflexivity. Qed.


(* ------------------------------------------------------------------ *)
(** ** Facts about the string helpers *)



(** stdpp makes [append] opaque to [simpl]; its two equations: *)
Lemma str_app_cons (x : ascii) (a b : string) :
  (String x a ++ b)%string = String x (a ++ b)%string.
Proof. reflexivity. Qed.

Lemma str_app_nil (b : string) : ("" ++ b)%string = b.
Proof. reflexivity. Qed.

Ltac ssimpl := simpl; rewrite ?str_app_cons, ?str_app_nil.

Lemma str_app_assoc (a b c : string) : ((a ++ b) ++ c = a ++ (b ++ c))%string.
Proof. induction a as [|x a IH]; ssimpl; [reflexivity | now rewrite IH]. Qed.

Lemma str_app_nil_r (a : string) : (a ++ "")%string = a.
Proof. induction a as [|x a IH]; ssimpl; [reflexivity | now rewrite IH]. Qed.

Lemma str_rev_snoc (s : string) (c : ascii) :
  str_rev (s ++ String c "")%string = String c (str_rev s).
Proof. induction s as [|x s IH]; ssimpl; [reflexivity | now rewrite IH]. Qed.

Lemma str_rev_involutive (s : string) : str_rev (str_rev s) = s.
Proof.
  induction s as [|x s IH]; ssimpl; [reflexivity|].
  now rewrite str_rev_snoc, IH.
Qed.

(** Stripping leaves a string whose first and last characters are kept. *)
Lemma strip_by_id (p : ascii -> bool) (c0 c1 : ascii) (s0 s1 : string) :
  p c0 = false -> p c1 = false ->
  String c0 s0 = (s1 ++ String c1 "")%string ->
  strip_by p (String c0 s0) = String c0 s0.
Proof.
  intros H0 H1 E. unfold strip_by, rstrip_by. ssimpl. rewrite H0.
  rewrite E, str_rev_snoc. ssimpl. rewrite H1.
  change (str_rev (String c1 (str_rev s1))) with (str_rev (str_rev s1) ++ String c1 "")%string.
  now rewrite str_rev_involutive.
Qed.

Lemma split_once_app (sep : ascii) (l r : string) :
  str_forall (fun c => negb (Ascii.eqb c sep)) l = true ->
  split_once sep (l ++ String sep r)%string = (l, Some r).
Proof.
  induction l as [|x l IH]; ssimpl; intros H.
  - now rewrite Ascii.eqb_refl.
  - apply andb_prop in H as [Hx Hl]. apply negb_true_iff in Hx.
    rewrite Hx, IH by exact Hl. reflexivity.
Qed.

Lemma split_once_none (sep : ascii) (l : string) :
  str_forall (fun c => negb (Ascii.eqb c sep)) l = true ->
  split_once sep l = (l, None).
Proof.
  induction l as [|x l IH]; ssimpl; intros H; [reflexivity|].
  apply andb_prop in H as [Hx Hl]. apply negb_true_iff in Hx.
  rewrite Hx, IH by exact Hl. reflexivity.
Qed.

(** [split(sep, 1)] cuts at the first separator. *)
Lemma split_once_first (sep : ascii) (s l r : string) :
  split_once sep s = (l, Some r) ->
  s = (l ++ String sep r)%string /\ str_forall (fun c => negb (Ascii.eqb c sep)) l = true.
Proof.
  revert l. induction s as [|x s IH]; ssimpl; intros l H; [discriminate|].
  destruct (Ascii.eqb x sep) eqn:Ex.
  - inversion H; subst. apply Ascii.eqb_eq in Ex. subst. split; reflexivity.
  - destruct (split_once sep s) as [l' r'] eqn:Es. inversion H; subst.
    destruct (IH l' eq_refl) as [-> Hl]. ssimpl. rewrite Ex, Hl. split; reflexivity.
Qed.

(* ------------------------------------------------------------------ *)
(** ** Facts about [int_repr] and [py_int] *)



Lemma n_digits_spec (fuel : nat) (n : Z) :
  0 <= n -> (Z.to_nat n < fuel)%nat ->
  n_digits fuel n <> [] /\ Forall is_digit (n_digits fuel n) /\
  digits_value (n_digits fuel n) 0 = n.
Proof.
  revert n. induction fuel as [|f IH]; intros n Hn Hf; [lia|].
  ssimpl. destruct (n <? 10) eqn:E.
  - apply Z.ltb_lt in E. split; [discriminate|]. split.
    + constructor; [unfold is_digit; lia | constructor].
    + reflexivity.
  - apply Z.ltb_ge in E.
    assert (Hq : 0 <= n / 10) by (apply Z.div_pos; lia).
    assert (Hlt : (Z.to_nat (n / 10) < f)%nat).
    { assert (n / 10 < n) by (apply Z.div_lt; lia). lia. }
    destruct (IH (n / 10) Hq Hlt) as (_ & Hd & Hv). split; [|split].
    + destruct (n_digits f (n / 10)); discriminate.
    + apply Forall_app; split; [exact Hd|].
      constructor; [unfold is_digit; pose proof (Z.mod_pos_bound n 10); lia | constructor].
    + unfold digits_value in *. rewrite fold_left_app, Hv. ssimpl.
      pose proof (Z.div_mod n 10). lia.
Qed.

Lemma digit_cases (d : Z) : is_digit d ->
  d = 0 \/ d = 1 \/ d = 2 \/ d = 3 \/ d = 4 \/ d = 5 \/ d = 6 \/ d = 7 \/ d = 8 \/ d = 9.
Proof. unfold is_digit. lia. Qed.

Lemma char_digit_char (d : Z) : is_digit d -> char_digit (digit_char d) = Some d.
Proof.
  intros H. destruct (digit_cases d H) as [->|[->|[->|[->|[->|[->|[->|[->|[->| ->]]]]]]]]];
    reflexivity.
Qed.

Lemma int_digits_string (ds : list Z) (acc : Z) :
  Forall is_digit ds -> int_digits (digits_string ds) acc = Some (digits_value ds acc).
Proof.
  revert acc. induction ds as [|d ds IH]; intros acc H; [reflexivity|].
  inversion H as [|? ? Hd Hds]; subst. ssimpl.
  destruct (digit_cases d Hd) as [->|[->|[->|[->|[->|[->|[->|[->|[->| ->]]]]]]]]];
    ssimpl; apply IH; exact Hds.
Qed.

Lemma digits_string_snoc (ds : list Z) (d : Z) :
  digits_string (ds ++ [d]) = (digits_string ds ++ String (digit_char d) "")%string.
Proof. induction ds as [|x ds IH]; ssimpl; [reflexivity | now rewrite IH]. Qed.

Lemma int_repr_body (z : Z) :
  exists ds, ds <> [] /\ Forall is_digit ds /\ digits_value ds 0 = Z.abs z /\
    int_repr z = (if z <? 0 then String "-" (digits_string ds) else digits_string ds).
Proof.
  exists (n_digits (S (Z.to_nat (Z.abs z))) (Z.abs z)).
  destruct (n_digits_spec (S (Z.to_nat (Z.abs z))) (Z.abs z)) as (Hne & Hd & Hv);
    [lia | lia |].
  repeat split; auto.
Qed.

Lemma digits_no_at (ds : list Z) : Forall is_digit ds ->
  str_forall not_at (digits_string ds) = true.
Proof.
  induction ds as [|d ds IH]; intros H; [reflexivity|].
  inversion H as [|? ? Hd Hds]; subst. ssimpl.
  destruct (digit_cases d Hd) as [->|[->|[->|[->|[->|[->|[->|[->|[->| ->]]]]]]]]];
    ssimpl; apply IH; exact Hds.
Qed.

Lemma int_repr_no_at (z : Z) : str_forall not_at (int_repr z) = true.
Proof.
  destruct (int_repr_body z) as (ds & _ & Hd & _ & ->).
  destruct (z <? 0); ssimpl; apply digits_no_at; exact Hd.
Qed.

Lemma strip_id (s : string) :
  (exists c0 s0, s = String c0 s0 /\ is_space c0 = false) ->
  (exists s1 c1, s = (s1 ++ String c1 "")%string /\ is_space c1 = false) ->
  py_strip s = s.
Proof.
  intros (c0 & s0 & -> & H0) (s1 & c1 & E & H1).
  unfold py_strip. eapply strip_by_id; eauto.
Qed.

Lemma digit_not_space (d : Z) : is_digit d -> is_space (digit_char d) = false.
Proof.
  intros H. destruct (digit_cases d H) as [->|[->|[->|[->|[->|[->|[->|[->|[->| ->]]]]]]]]];
    reflexivity.
Qed.

Lemma int_repr_first (z : Z) :
  exists c0 s0, int_repr z = String c0 s0 /\ is_space c0 = false.
Proof.
  destruct (int_repr_body z) as (ds & Hne & Hd & _ & ->).
  destruct (z <? 0).
  - eexists _, _. split; reflexivity.
  - destruct ds as [|d ds]; [congruence|]. inversion Hd; subst.
    eexists _, _. split; [reflexivity|]. apply digit_not_space; assumption.
Qed.

Lemma int_repr_last (z : Z) :
  exists s1 c1, int_repr z = (s1 ++ String c1 "")%string /\ is_space c1 = false.
Proof.
  destruct (int_repr_body z) as (ds & Hne & Hd & _ & ->).
  destruct (exists_last Hne) as (ds' & d & ->).
  apply Forall_app in Hd as [_ Hd]. inversion Hd; subst.
  rewrite digits_string_snoc. destruct (z <? 0).
  - exists (String "-" (digits_string ds')), (digit_char d).
    split; [reflexivity | apply digit_not_space; assumption].
  - exists (digits_string ds'), (digit_char d).
    split; [reflexivity | apply digit_not_space; assumption].
Qed.

Lemma int_repr_nonempty (z : Z) : int_repr z <> ""%string.
Proof. destruct (int_repr_first z) as (c0 & s0 & -> & _). discriminate. Qed.

Lemma int_unsigned_digits (ds : list Z) :
  ds <> [] -> Forall is_digit ds ->
  int_unsigned (digits_string ds) = Some (digits_value ds 0).
Proof.
  destruct ds as [|d ds]; intros Hne Hd; [congruence|].
  inversion Hd as [|? ? Hd0 Hds]; subst. ssimpl.
  rewrite char_digit_char by exact Hd0.
  rewrite int_digits_string by exact Hds. reflexivity.
Qed.

Lemma int_signed_digit (d : Z) (r : string) : is_digit d ->
  int_signed (String (digit_char d) r) = int_unsigned (String (digit_char d) r).
Proof.
  intros H. destruct (digit_cases d H) as [->|[->|[->|[->|[->|[->|[->|[->|[->| ->]]]]]]]]];
    reflexivity.
Qed.

Lemma py_int_int_repr (z : Z) : py_int (int_repr z) = Some z.
Proof.
  unfold py_int. rewrite strip_id by (apply int_repr_first || apply int_repr_last).
  destruct (int_repr_body z) as (ds & Hne & Hd & Hv & ->).
  destruct (z <? 0) eqn:Ez.
  - simpl. rewrite int_unsigned_digits by assumption. simpl. apply Z.ltb_lt in Ez. rewrite Hv. f_equal. lia.
  - apply Z.ltb_ge in Ez.
    destruct ds as [|d ds]; [congruence|]. inversion Hd as [|? ? Hd0 _]; subst.
    simpl digits_string. rewrite int_signed_digit by exact Hd0.
    change (String (digit_char d) (digits_string ds)) with (digits_string (d :: ds)).
    rewrite int_unsigned_digits by assumption. f_equal. lia.
Qed.

Lemma strip_repr_at (m : Z) (tail : string) :
  (tail = ""%string \/ exists s1 c1, tail = (s1 ++ String c1 "")%string /\ is_space c1 = false) ->
  py_strip (int_repr m ++ String "@" tail)%string = (int_repr m ++ String "@" tail)%string.
Proof.
  intros Ht. apply strip_id.
  - destruct (int_repr_first m) as (c0 & s0 & -> & H0). eexists _, _. split; [|exact H0].
    rewrite str_app_cons. reflexivity.
  - destruct Ht as [-> | (s1 & c1 & -> & H1)].
    + exists (int_repr m), "@"%char. split; reflexivity.
    + exists (int_repr m ++ String "@" s1)%string, c1. split; [|exact H1].
      rewrite str_app_assoc. rewrite str_app_cons. reflexivity.
Qed.

(** *** Claim C2 *)

(** C2: on "<int>" and "<int>@<int>" (and "<int>@") the identifier parser
    returns (model_id, version_id), with version_id none when the part
    after '@' is absent or empty; the empty string, a non-numeric left
    segment and a non-numeric (non-empty) right segment raise ValueError
    (the ValidationError); the split is taken at the first '@'. *)
Theorem parse_lora_air_correct :
  (forall m : Z, parse_lora_air (int_repr m) = Ok (m, None)) /\
  (forall m : Z, parse_lora_air (int_repr m ++ "@")%string = Ok (m, None)) /\
  (forall m v : Z, parse_lora_air (int_repr m ++ "@" ++ int_repr v)%string = Ok (m, Some v)) /\
  parse_lora_air "" = Err (ValueError "LORA AIR identifier required (ex: 12345@67890)") /\
  (forall (s l : string) (r : option string),
     s <> ""%string -> split_once "@" (py_strip s) = (l, r) -> py_int l = None ->
     parse_lora_air s = Err (ValueError "Invalid model ID provided")) /\
  (forall (s l r : string) (m : Z),
     s <> ""%string -> split_once "@" (py_strip s) = (l, Some r) -> py_int l = Some m ->
     r <> ""%string -> py_int r = None ->
     parse_lora_air s = Err (ValueError "Invalid version ID provided")) /\
  (forall s l r : string, split_once "@" s = (l, Some r) ->
     s = (l ++ "@" ++ r)%string /\ str_forall not_at l = true).
Proof.
  split; [|split; [|split; [|split; [|split; [|split]]]]].
  - intros m. unfold parse_lora_air.
    destruct (String.eqb_spec (int_repr m) "") as [E|_];
      [exfalso; exact (int_repr_nonempty m E)|].
    unfold py_strip. rewrite strip_id by (apply int_repr_first || apply int_repr_last).
    rewrite split_once_none by apply int_repr_no_at.
    rewrite py_int_int_repr. reflexivity.
  - intros m. unfold parse_lora_air.
    destruct (String.eqb_spec (int_repr m ++ "@") "") as [E|_].
    { destruct (int_repr_first m) as (c0 & s0 & Hm & _). rewrite Hm in E. discriminate. }
    change ("@")%string with (String "@" "").
    rewrite strip_repr_at by (left; reflexivity).
    rewrite split_once_app by apply int_repr_no_at.
    rewrite py_int_int_repr. reflexivity.
  - intros m v. unfold parse_lora_air.
    destruct (String.eqb_spec (int_repr m ++ "@" ++ int_repr v) "") as [E|_].
    { destruct (int_repr_first m) as (c0 & s0 & Hm & _). rewrite Hm in E. discriminate. }
    change ("@" ++ int_repr v)%string with (String "@" (int_repr v)).
    rewrite strip_repr_at by (right; apply int_repr_last).
    rewrite split_once_app by apply int_repr_no_at.
    rewrite py_int_int_repr.
    destruct (String.eqb_spec (int_repr v) "") as [E|_];
      [exfalso; exact (int_repr_nonempty v E)|].
    rewrite py_int_int_repr. reflexivity.
  - reflexivity.
  - intros s l r Hs Hsplit Hl. unfold parse_lora_air.
    destruct (String.eqb_spec s "") as [E|_]; [contradiction|].
    rewrite Hsplit, Hl. reflexivity.
  - intros s l r m Hs Hsplit Hl Hr Hrv. unfold parse_lora_air.
    destruct (String.eqb_spec s "") as [E|_]; [contradiction|].
    rewrite Hsplit, Hl. destruct (String.eqb_spec r "") as [E|_]; [contradiction|].
    rewrite Hrv. reflexivity.
  - intros s l r H. exact (split_once_first "@" s l r H).
Qed.

(* ------------------------------------------------------------------ *)
(** ** The ledger: [_record_entry] *)

Lemma opt_eqb_refl (v : option Z) : opt_eqb v v = true.
Proof. destruct v; simpl; [apply Z.eqb_refl | reflexivity]. Qed.

Lemma add_file_spec (files : list FileRecord) (f u : string) :
  match add_file files f u with
  | Some files' => files' = files ++ [new_file_record f u] /\
                   existsb (file_has_name f) files = false
  | None => existsb (file_has_name f) files = true
  end.
Proof.
  unfold add_file. destruct (existsb (file_has_name f) files) eqn:E; auto.
Qed.

Lemma file_has_name_new (f u : string) : file_has_name f (new_file_record f u) = true.
Proof. unfold file_has_name. simpl. apply String.eqb_refl. Qed.

(** What one call does to the entry list of the model. *)
Lemma record_in_entries_spec (es : list VersionRecord) (v : option Z) (f u : string) :
  match record_in_entries es v f u with
  | Some es' =>
      exists e', find_version es' v = Some e' /\
        default [] (vr_files e') =
          default [] (option_map (fun e => default [] (vr_files e)) (find_version es v))
          ++ [new_file_record f u]
  | None =>
      exists e, find_version es v = Some e /\
        existsb (file_has_name f) (default [] (vr_files e)) = true
  end.
Proof.
  induction es as [|e es IH]; simpl.
  - unfold add_to_entry. simpl.
    eexists. split; [unfold find_version; simpl; rewrite opt_eqb_refl; reflexivity|].
    reflexivity.
  - unfold find_version at 2 3. simpl. destruct (opt_eqb (vr_id e) v) eqn:Ev.
    + unfold add_to_entry. pose proof (add_file_spec (default [] (vr_files e)) f u) as Hadd.
      destruct (add_file (default [] (vr_files e)) f u) as [files'|] eqn:Ea; simpl.
      * destruct Hadd as [-> _]. eexists. split.
        -- unfold find_version. simpl. rewrite ?Ev. reflexivity.
        -- reflexivity.
      * exists e. split; [unfold find_version; simpl; rewrite ?Ev; reflexivity | exact Hadd].
    + destruct (record_in_entries es v f u) as [es'|] eqn:Er; simpl.
      * destruct IH as (e' & Hf & Hl). exists e'. split.
        -- unfold find_version. simpl. rewrite ?Ev. exact Hf.
        -- exact Hl.
      * destruct IH as (e0 & Hf & Hl). exists e0. split; [|exact Hl].
        unfold find_version. simpl. rewrite ?Ev. exact Hf.
Qed.

(** A listed name stops the search: nothing is appended. *)
Lemma record_in_entries_listed (es : list VersionRecord) (v : option Z) (f u : string) (e : VersionRecord) :
  find_version es v = Some e ->
  existsb (file_has_name f) (default [] (vr_files e)) = true ->
  record_in_entries es v f u = None.
Proof.
  induction es as [|e0 es IH]; unfold find_version; simpl; intros Hf Hl; [discriminate|].
  destruct (opt_eqb (vr_id e0) v) eqn:Ev.
  - inversion Hf; subst. unfold add_to_entry, add_file. rewrite Hl. reflexivity.
  - rewrite IH; auto.
Qed.

(** *** Claim C7 *)

(** C7: recording the same (modelId, versionId, fileName) a second time
    changes nothing (so the length of that version record's file list is
    unchanged) and saves nothing; a call saves the ledger only when it
    appends a new file record to that version's file list (and otherwise
    leaves the ledger as it was). *)
Theorem record_entry_idempotent (h : ledger) (model_id : Z) (version_id : option Z)
    (file_name download_url : string) :
  let '(h1, saved1) := record_entry h model_id version_id file_name download_url in
  (let '(h2, saved2) := record_entry h1 model_id version_id file_name download_url in
   h2 = h1 /\ saved2 = false /\
   option_map (@length _) (version_files h2 model_id version_id) =
   option_map (@length _) (version_files h1 model_id version_id)) /\
  (saved1 = true ->
   version_files h1 model_id version_id =
   Some (default [] (version_files h model_id version_id) ++ [new_file_record file_name download_url])) /\
  (saved1 = false -> h1 = h).
Proof.
  unfold record_entry.
  pose proof (record_in_entries_spec (default [] (h !! int_repr model_id)) version_id
                file_name download_url) as Hspec.
  destruct (record_in_entries (default [] (h !! int_repr model_id)) version_id
              file_name download_url) as [es'|] eqn:Er.
  - destruct Hspec as (e' & Hf & Hl).
    rewrite lookup_insert_eq. simpl.
    rewrite (record_in_entries_listed es' version_id file_name download_url e' Hf).
    2:{ rewrite Hl, existsb_app. simpl. rewrite file_has_name_new. apply orb_true_r. }
    split; [split; [reflexivity | split; reflexivity]|]. split; [|discriminate].
    intros _. unfold version_files. rewrite lookup_insert_eq. simpl. rewrite Hf. simpl.
    rewrite Hl. reflexivity.
  - rewrite Er. split; [split; [reflexivity | split; reflexivity]|]. split; [discriminate|].
    intros _. reflexivity.
Qed.

(* ------------------------------------------------------------------ *)
(** ** The ledger: [_find_cached_entry] *)

Lemma find_app {A} (p : A -> bool) (l1 l2 : list A) :
  find p (l1 ++ l2) = match find p l1 with Some x => Some x | None => find p l2 end.
Proof. induction l1 as [|x l1 IH]; simpl; [reflexivity|]. destruct (p x); auto. Qed.

Lemma first_cached_file_find (fs lora_paths : list string) (files : list FileRecord) :
  first_cached_file fs lora_paths files =
  find (fun n => negb (String.eqb n "") && still_on_disk fs lora_paths n) (listed_names files).
Proof.
  induction files as [|fd files IH]; simpl; [reflexivity|].
  destruct (fr_name fd) as [name|]; simpl; [|exact IH].
  unfold still_on_disk. destruct (String.eqb name "") eqn:E; simpl; [exact IH|].
  destruct (model_path fs name lora_paths) as [p|]; simpl; [|exact IH].
  destruct (String.eqb p ""); simpl; [exact IH | reflexivity].
Qed.

Lemma scan_entries_find (fs lora_paths : list string) (v : option Z) (es : list VersionRecord) :
  scan_entries fs lora_paths v es =
  find (fun n => negb (String.eqb n "") && still_on_disk fs lora_paths n)
    (flat_map (fun e => if considered v e then listed_names (default [] (vr_files e)) else []) es).
Proof.
  induction es as [|e es IH]; simpl; [reflexivity|].
  rewrite find_app. unfold considered. destruct v as [x|]; simpl.
  - destruct (opt_eqb (vr_id e) (Some x)); simpl.
    + rewrite first_cached_file_find, IH. destruct (find _ (listed_names _)); reflexivity.
    + exact IH.
  - rewrite first_cached_file_find, IH. destruct (find _ (listed_names _)); reflexivity.
Qed.

Lemma find_some_in {A} (p : A -> bool) (l : list A) (x : A) :
  find p l = Some x -> In x l /\ p x = true.
Proof. apply find_some. Qed.

Lemma find_none_all {A} (p : A -> bool) (l : list A) :
  (forall x, In x l -> p x = false) -> find p l = None.
Proof.
  induction l as [|y l IH]; simpl; intros H; [reflexivity|].
  rewrite (H y (or_introl eq_refl)). apply IH. intros x Hx. apply H. right. exact Hx.
Qed.

(** *** Claim C8 *)

(** C8: [_find_cached_entry] returns the first listed, non-empty file name
    of the considered version records that the Path Resolver still finds
    on disk, where, when a version id is requested, only records whose id
    equals it are considered (null ids are skipped); hence it returns none
    when no listed file still exists, and a hit for a requested version
    comes from a record with that id. *)
Theorem find_cached_entry_correct (fs lora_paths : list string) (h : ledger)
    (model_id : Z) (version_id : option Z) :
  find_cached_entry fs lora_paths h model_id version_id =
    spec_find_cached fs lora_paths h model_id version_id /\
  ((forall n, In n (spec_candidates h model_id version_id) -> still_on_disk fs lora_paths n = false) ->
   find_cached_entry fs lora_paths h model_id version_id = None) /\
  (forall (x : Z) (n : string), version_id = Some x ->
   find_cached_entry fs lora_paths h model_id version_id = Some n ->
   exists e, In e (default [] (h !! int_repr model_id)) /\ vr_id e = Some x /\
     In n (listed_names (default [] (vr_files e))) /\ still_on_disk fs lora_paths n = true).
Proof.
  assert (Heq : find_cached_entry fs lora_paths h model_id version_id =
                spec_find_cached fs lora_paths h model_id version_id).
  { unfold find_cached_entry, spec_find_cached, spec_candidates. apply scan_entries_find. }
  split; [exact Heq | split].
  - intros Hnone. rewrite Heq. unfold spec_find_cached. apply find_none_all.
    intros n Hn. rewrite (Hnone n Hn). apply andb_false_r.
  - intros x n -> Hf. rewrite Heq in Hf. unfold spec_find_cached in Hf.
    apply find_some_in in Hf as [Hin Hp]. apply andb_prop in Hp as [_ Hp].
    unfold spec_candidates in Hin. apply in_flat_map in Hin as (e & He & Hn).
    unfold considered in Hn. destruct (opt_eqb (vr_id e) (Some x)) eqn:Ex; [|destruct Hn].
    exists e. split; [exact He|]. split; [|split; assumption].
    destruct (vr_id e) as [y|]; simpl in Ex; [|discriminate].
    apply Z.eqb_eq in Ex. subst. reflexivity.
Qed.

Lemma find_cached_entry_nonempty (fs lora_paths : list string) (h : ledger)
    (model_id : Z) (version_id : option Z) (name : string) :
  find_cached_entry fs lora_paths h model_id version_id = Some name ->
  String.eqb name "" = false.
Proof.
  unfold find_cached_entry. rewrite scan_entries_find. intros Hf.
  apply find_some_in in Hf as [_ Hp]. apply andb_prop in Hp as [Hp _].
  apply negb_true_iff in Hp. exact Hp.
Qed.

(* ------------------------------------------------------------------ *)
(** ** The node entry point *)

(** *** Claim C1 *)

(** C1: [load_fast_lora] returns a given (non-empty) existing-file
    override other than "none" unchanged, and otherwise returns the cached
    file name when the ledger lookup for the parsed (modelId, versionId)
    finds one; in both cases the world is left as it was: no registry
    request, no transfer, no ledger save (no event at all). *)
Theorem load_fast_lora_short_circuits (E : Env) (a : LoadArgs) (w : World) :
  (a_lora_name a <> ""%string -> a_lora_name a <> "none"%string ->
   load_fast_lora E a w = (Ok (a_lora_name a), w)) /\
  (forall (model_id : Z) (version_id : option Z) (history : ledger) (name : string),
   (a_lora_name a = ""%string \/ a_lora_name a = "none"%string) ->
   parse_lora_air (a_lora_air a) = Ok (model_id, version_id) ->
   e_history E = Ok history ->
   find_cached_entry (w_fs w) (e_lora_paths E) history model_id version_id = Some name ->
   load_fast_lora E a w = (Ok name, w)).
Proof.
  split.
  - intros H1 H2. unfold load_fast_lora.
    destruct (String.eqb_spec (a_lora_name a) "") as [E1|_]; [contradiction|].
    destruct (String.eqb_spec (a_lora_name a) "none") as [E2|_]; [contradiction|].
    reflexivity.
  - intros model_id version_id history name Hn Hp Hh Hc. unfold load_fast_lora.
    assert (Hskip : negb (String.eqb (a_lora_name a) "") &&
                    negb (String.eqb (a_lora_name a) "none") = false).
    { destruct Hn as [-> | ->]; reflexivity. }
    rewrite Hskip, Hp, Hh. unfold bind, get_fs. simpl. rewrite Hc. simpl.
    rewrite (find_cached_entry_nonempty _ _ _ _ _ _ Hc). reflexivity.
Qed.

(* ------------------------------------------------------------------ *)
(** ** The registry client *)

Lemma select_file_first_primary (files : list FileInfo) (first : FileInfo)
    (pre post : list FileInfo) (f : FileInfo) :
  files = pre ++ f :: post -> Forall (fun g => fi_primary g = false) pre ->
  fi_primary f = true -> select_file files first = f.
Proof.
  intros -> Hpre Hf. unfold select_file. rewrite find_app.
  rewrite find_none_all.
  - simpl. rewrite Hf. reflexivity.
  - intros x Hx. rewrite List.Forall_forall in Hpre. apply Hpre, Hx.
Qed.

Lemma select_file_no_primary (files : list FileInfo) (first : FileInfo) :
  Forall (fun g => fi_primary g = false) files -> select_file files first = first.
Proof.
  intros H. unfold select_file. rewrite find_none_all; [reflexivity|].
  intros x Hx. rewrite List.Forall_forall in H. apply H, Hx.
Qed.

(** *** Claim C3 *)

(** C3: on a non-empty file list the registry client uses the first file
    flagged primary, or the first file of the list when none is flagged
    (its name and URL are the ones resolved); an empty file list raises
    the RegistryError "Model version has no downloadable files". *)
Theorem resolve_selects_primary_file (E : Env) (d : Downloader) (model_id : Z)
    (version_id : option Z) (details : VersionDetails) (w : World) :
  (default [] (vd_files details) = [] ->
   resolve_with_details d model_id version_id details w =
   (Err (RuntimeError "Model version has no downloadable files"), w)) /\
  (forall (f0 : FileInfo) (rest : list FileInfo),
   default [] (vd_files details) = f0 :: rest ->
   (forall pre f post, f0 :: rest = pre ++ f :: post ->
      Forall (fun g => fi_primary g = false) pre -> fi_primary f = true ->
      select_file (f0 :: rest) f0 = f) /\
   (Forall (fun g => fi_primary g = false) (f0 :: rest) -> select_file (f0 :: rest) f0 = f0) /\
   (let pf := select_file (f0 :: rest) f0 in
    str_truthy (fi_name pf) = true -> str_truthy (fi_downloadUrl pf) = true ->
    resolve_with_details d model_id version_id details w =
    (Ok (model_id, version_id, default "" (fi_name pf),
         with_token d (default "" (fi_downloadUrl pf))), w))).
Proof.
  split.
  - intros H. unfold resolve_with_details. rewrite H. reflexivity.
  - intros f0 rest H. split; [|split].
    + intros pre f post E1 Hpre Hf. eapply select_file_first_primary; eauto.
    + apply select_file_no_primary.
    + intros pf Hn Hu. unfold resolve_with_details. rewrite H. fold pf.
      unfold str_or. rewrite Hu, Hu, Hn. reflexivity.
Qed.

(** The probe never raises, and its answer does not depend on the world. *)
Lemma probe_filename_ok (E : Env) (url : string) :
  exists r : option string, forall w : World,
    probe_filename E url w = (Ok r, {| w_fs := w_fs w; w_log := EHead url :: w_log w |}).
Proof.
  unfold probe_filename, bind, emit, ret. simpl.
  destruct (e_head E url) as [status cd final_url | msg]; [|eexists; intros w; reflexivity].
  destruct (400 <=? status); [eexists; intros w; reflexivity|].
  destruct cd as [cd|]; [|eexists; intros w; reflexivity].
  destruct (negb (String.eqb cd "") && str_contains "filename=" cd);
    [|eexists; intros w; reflexivity].
  destruct (String.eqb (strip_by (fun c => Ascii.eqb c dquote) (after_marker "filename=" cd)) "");
    eexists; intros w; reflexivity.
Qed.

(** *** Claim C4 *)

(** C4: when the version-scoped metadata fetch of [_resolve_download]
    fails with the registry error (a non-200 status), resolution falls
    back to the degraded path: it returns the direct-download URL template
    for that version id (with the token), never raises whatever the probe
    does, and uses the placeholder civitai_model_<versionId>.safetensors
    when the probe yields no name (an HTTP error status, a request
    exception, or an empty name). *)
Theorem resolve_degraded_path (E : Env) (d : Downloader) (model_id v status : Z)
    (body : option VersionDetails) (w : World) :
  v <> 0 -> e_version_api E v = ApiResp status body -> status <> 200 ->
  let url := with_token d (download_template v) in
  exists (file_name : string) (w' : World),
    resolve_download E d model_id (Some v) w = (Ok (model_id, Some v, file_name, url), w') /\
    ((forall w0, fst (probe_filename E url w0) = Ok None \/
                 fst (probe_filename E url w0) = Ok (Some ""%string)) ->
     file_name = placeholder_name v) /\
    ((match e_head E url with
      | HeadRequestException _ => True
      | HeadResp st _ _ => 400 <= st
      end) -> file_name = placeholder_name v).
Proof.
  intros Hv Hapi Hst url.
  destruct (probe_filename_ok E url) as [r Hr].
  set (fname := if str_truthy r then default "" r else placeholder_name v).
  set (w1 := {| w_fs := w_fs w; w_log := EFetch ("model-versions/" ++ int_repr v) :: w_log w |}).
  exists fname, {| w_fs := w_fs w1; w_log := EHead url :: w_log w1 |}.
  assert (Hres : resolve_download E d model_id (Some v) w =
                 (Ok (model_id, Some v, fname, url), {| w_fs := w_fs w1; w_log := EHead url :: w_log w1 |})).
  { unfold resolve_download. destruct (Z.eqb_spec v 0) as [E0|_]; [contradiction|].
    unfold try_except, bind at 1. unfold bind at 1. unfold fetch, bind, emit. simpl.
    rewrite Hapi. destruct (Z.eqb_spec status 200) as [E2|_]; [contradiction|]. simpl.
    unfold resolve_from_version_only, bind. fold url. rewrite Hr. reflexivity. }
  split; [exact Hres|]. split.
  - intros Hp. destruct (Hp w) as [H|H]; rewrite Hr in H; simpl in H; inversion H; subst;
      reflexivity.
  - intros Hh. assert (Hnone : r = None).
    { specialize (Hr w). revert Hr. unfold probe_filename, bind, emit, ret. simpl.
      destruct (e_head E url) as [st cd fu | msg].
      - apply Z.leb_le in Hh. rewrite Hh. intros H; inversion H; reflexivity.
      - intros H; inversion H; reflexivity. }
    subst fname. rewrite Hnone. reflexivity.
Qed.

(* ------------------------------------------------------------------ *)
(** ** The download executor *)

Lemma fs_remove_gone (fs : list string) (p : string) :
  path_exists (fs_remove fs p) p = false.
Proof.
  unfold path_exists, fs_remove. induction fs as [|q fs IH]; simpl; [reflexivity|].
  destruct (String.eqb p q) eqn:Hpq; simpl; [exact IH|].
  rewrite Hpq, IH. reflexivity.
Qed.

(** With removal permitted, [remove_if_exists] leaves no file at [p] and
    logs the attempt exactly when a file was there. *)
Lemma remove_if_exists_spec (E : Env) (p : string) (w : World) :
  e_can_remove E p = true ->
  exists w', remove_if_exists E p w = (Ok tt, w') /\
    path_exists (w_fs w') p = false /\
    w_log w' = (if path_exists (w_fs w) p then ERemove p :: w_log w else w_log w).
Proof.
  intros Hc. unfold remove_if_exists, exists_m, bind. simpl.
  destruct (path_exists (w_fs w) p) eqn:Ex.
  - unfold remove_quietly, bind, emit. simpl. rewrite Hc.
    eexists. split; [reflexivity|]. simpl. split; [apply fs_remove_gone | reflexivity].
  - eexists. split; [reflexivity|]. split; [exact Ex | reflexivity].
Qed.

Lemma remove_then_raise {A} (E : Env) (p : string) (e : exn) (w : World) :
  e_can_remove E p = true ->
  exists w', (let* _ := remove_if_exists E p in (raise e : M A)) w = (Err e, w') /\
    path_exists (w_fs w') p = false.
Proof.
  intros Hc. destruct (remove_if_exists_spec E p w Hc) as (w' & Hr & Hg & _).
  exists w'. unfold bind. rewrite Hr. split; [reflexivity | exact Hg].
Qed.

Lemma create_m_log (p : string) (w : World) :
  exists w', create_m p w = (Ok tt, w') /\ w_log w' = w_log w.
Proof. eexists. split; reflexivity. Qed.

(** The tool loop, when removal is permitted and no file is at the
    destination when it starts: it only adds events, and when it raises
    or runs to the end no file is left at the destination. *)
Lemma run_commands_cleanup (E : Env) (dest : string) :
  e_can_remove E dest = true ->
  forall (commands : list (list string)) (msgs : list string) (w : World),
  path_exists (w_fs w) dest = false ->
  let '(r, w') := run_commands E dest commands msgs w in
  (exists l, w_log w' = l ++ w_log w) /\
  match r with
  | Ok None => True
  | _ => path_exists (w_fs w') dest = false
  end.
Proof.
  intros Hc commands. induction commands as [|command rest IH]; intros msgs w Hw.
  - simpl. split; [exists []; reflexivity | exact Hw].
  - simpl. unfold bind at 1, emit. simpl.
    set (w1 := {| w_fs := w_fs w; w_log := ERun command :: w_log w |}).
    assert (Hw1 : path_exists (w_fs w1) dest = false) by exact Hw.
    destruct (e_run E command) as [code writes | msg | e].
    + unfold bind at 1.
      set (w2 := if writes then {| w_fs := fs_create (w_fs w1) dest; w_log := w_log w1 |} else w1).
      replace ((if writes then create_m dest else ret tt) w1) with (@Ok unit tt, w2)
        by (subst w2; destruct writes; reflexivity).
      assert (Hl2 : w_log w2 = w_log w1) by (subst w2; destruct writes; reflexivity).
      destruct (Z.eqb code 0).
      * unfold bind, exists_m. simpl. destruct (path_exists (w_fs w2) dest) eqn:Ex.
        -- split; [|exact I]. exists [ERun command]. rewrite Hl2. reflexivity.
        -- specialize (IH msgs w2 Ex).
           destruct (run_commands E dest rest msgs w2) as [r w'] eqn:Er.
           destruct IH as [(l & Hl) Hr]. split; [|exact Hr].
           exists (l ++ [ERun command]). rewrite Hl, Hl2, <- app_assoc. reflexivity.
      * unfold bind at 1.
        destruct (remove_if_exists_spec E dest w2 Hc) as (w3 & Hr3 & Hg3 & Hl3).
        rewrite Hr3.
        specialize (IH (msgs ++ [called_process_error_msg command code]) w3 Hg3).
        destruct (run_commands E dest rest _ w3) as [r w'] eqn:Er.
        destruct IH as [(l & Hl) Hr]. split; [|exact Hr].
        rewrite Hl, Hl3, Hl2. destruct (path_exists (w_fs w2) dest).
        -- exists (l ++ [ERemove dest; ERun command]). simpl. rewrite <- app_assoc. reflexivity.
        -- exists (l ++ [ERun command]). rewrite <- app_assoc. reflexivity.
    + unfold bind at 1.
      destruct (remove_if_exists_spec E dest w1 Hc) as (w3 & Hr3 & Hg3 & Hl3).
      rewrite Hr3.
      specialize (IH (msgs ++ [msg]) w3 Hg3).
      destruct (run_commands E dest rest _ w3) as [r w'] eqn:Er.
      destruct IH as [(l & Hl) Hr]. split; [|exact Hr].
      rewrite Hl, Hl3. rewrite Hw1.
      exists (l ++ [ERun command]). rewrite <- app_assoc. reflexivity.
    + simpl. split; [exists [ERun command]; reflexivity | exact Hw1].
Qed.

(** Without any assumption on removal: [remove_if_exists] logs the
    attempt exactly when a file is there. *)
Lemma remove_if_exists_log (E : Env) (p : string) (w : World) :
  exists w1, remove_if_exists E p w = (Ok tt, w1) /\
    w_log w1 = (if path_exists (w_fs w) p then ERemove p :: w_log w else w_log w).
Proof.
  unfold remove_if_exists, exists_m, bind. simpl.
  destruct (path_exists (w_fs w) p) eqn:Ex.
  - unfold remove_quietly, bind, emit. simpl.
    eexists. split; [reflexivity|]. destruct (e_can_remove E p); reflexivity.
  - eexists. split; reflexivity.
Qed.

Lemma run_commands_log (E : Env) (dest : string) :
  forall (commands : list (list string)) (msgs : list string) (w : World),
  exists l, w_log (snd (run_commands E dest commands msgs w)) = l ++ w_log w.
Proof.
  intros commands. induction commands as [|command rest IH]; intros msgs w.
  - exists []. reflexivity.
  - simpl. unfold bind at 1, emit. simpl.
    set (w1 := {| w_fs := w_fs w; w_log := ERun command :: w_log w |}).
    assert (Hl1 : w_log w1 = [ERun command] ++ w_log w) by reflexivity.
    destruct (e_run E command) as [code writes | msg | e].
    + unfold bind at 1.
      set (w2 := if writes then {| w_fs := fs_create (w_fs w1) dest; w_log := w_log w1 |} else w1).
      replace ((if writes then create_m dest else ret tt) w1) with (@Ok unit tt, w2)
        by (subst w2; destruct writes; reflexivity).
      assert (Hl2 : w_log w2 = w_log w1) by (subst w2; destruct writes; reflexivity).
      destruct (Z.eqb code 0).
      * unfold bind, exists_m. simpl. destruct (path_exists (w_fs w2) dest).
        -- exists [ERun command]. simpl. rewrite Hl2. reflexivity.
        -- destruct (IH msgs w2) as (l & Hl). exists (l ++ [ERun command]).
           rewrite Hl, Hl2, Hl1, app_assoc. reflexivity.
      * unfold bind at 1.
        destruct (remove_if_exists_log E dest w2) as (w3 & Hr3 & Hl3). rewrite Hr3.
        destruct (IH (msgs ++ [called_process_error_msg command code]) w3) as (l & Hl).
        rewrite Hl, Hl3, Hl2, Hl1. destruct (path_exists (w_fs w2) dest).
        -- exists (l ++ [ERemove dest; ERun command]). rewrite <- app_assoc. reflexivity.
        -- exists (l ++ [ERun command]). rewrite <- app_assoc. reflexivity.
    + unfold bind at 1.
      destruct (remove_if_exists_log E dest w1) as (w3 & Hr3 & Hl3). rewrite Hr3.
      destruct (IH (msgs ++ [msg]) w3) as (l & Hl).
      rewrite Hl, Hl3, Hl1. destruct (path_exists (w_fs w1) dest).
      -- exists (l ++ [ERemove dest; ERun command]). rewrite <- app_assoc. reflexivity.
      -- exists (l ++ [ERun command]). rewrite <- app_assoc. reflexivity.
    + exists [ERun command]. reflexivity.
Qed.

(** C5 (amended). [_download_with_requests] re-raises every failure: a
    non-success status as [RuntimeError("HTTP <status>")] and a mid-stream
    exception unchanged; for every downloader configuration (every fallback
    strategy), whenever the platform lets the file be removed, no file is
    left at the destination after a failure. *)
Theorem download_with_requests_cleans_up (E : Env) (d : Downloader) (url dest : string)
    (w : World) :
  (forall e, e_get E url = StreamResp 200 (BodyRaise e) ->
     fst (download_with_requests E d url dest w) = Err e) /\
  (forall status body, e_get E url = StreamResp status body -> status <> 200 ->
     fst (download_with_requests E d url dest w) = Err (RuntimeError ("HTTP " ++ int_repr status)%string)) /\
  (e_can_remove E dest = true ->
     match download_with_requests E d url dest w with
     | (Err _, w') => path_exists (w_fs w') dest = false
     | (Ok _, _) => True
     end).
Proof.
  split; [|split].
  - intros e Hg. unfold download_with_requests, try_except, bind at 1, emit. simpl.
    rewrite Hg. simpl. unfold bind, create_m, raise. simpl.
    destruct (remove_if_exists_log E dest
      {| w_fs := fs_create (w_fs w) dest; w_log := EOpenWrite dest :: EGet url :: w_log w |})
      as (w1 & Hr & _).
    rewrite Hr. reflexivity.
  - intros status body Hg Hne. unfold download_with_requests, try_except, bind at 1, emit. simpl.
    rewrite Hg. apply Z.eqb_neq in Hne. rewrite Hne. simpl. unfold bind, raise.
    destruct (remove_if_exists_log E dest
      {| w_fs := w_fs w; w_log := EGet url :: w_log w |}) as (w1 & Hr & _).
    rewrite Hr. reflexivity.
  - intros Hc. unfold download_with_requests, try_except. cbv beta.
    match goal with |- context [match ?m w with _ => _ end] => destruct (m w) as [[a|e] w1] end;
      [exact I|]. simpl.
    destruct (remove_then_raise (A := unit) E dest e w1 Hc) as (w2 & Hr & Hg).
    rewrite Hr. exact Hg.
Qed.

(** Witness of C5: the 404 and the broken stream of the scenarios, and
    the cleanup on an environment that permits removal. *)
Lemma download_with_requests_cleans_up_witness :
  fst (download_with_requests fx_env_locked (fx_downloader "aria2c" true) fx_url fx_dest fx_world_with_file)
    = Err (RequestException "Connection broken") /\
  fst (download_with_requests fx_env (fx_downloader "requests_only" false) fx_url fx_dest fx_world_with_file)
    = Err (RuntimeError "HTTP 404") /\
  match download_with_requests fx_env (fx_downloader "requests_only" false) fx_url fx_dest fx_world_with_file with
  | (Err _, w') => path_exists (w_fs w') fx_dest = false
  | (Ok _, _) => True
  end.
Proof.
  destruct (download_with_requests_cleans_up fx_env_locked (fx_downloader "aria2c" true)
              fx_url fx_dest fx_world_with_file) as [H1 _].
  destruct (download_with_requests_cleans_up fx_env (fx_downloader "requests_only" false)
              fx_url fx_dest fx_world_with_file) as [_ [H2 H3]].
  split; [apply H1; reflexivity|]. split.
  - apply (H2 404 BodyComplete); [reflexivity | discriminate].
  - apply H3. reflexivity.
Defined.

(** C5 counterexample: the stream breaks after the destination was opened
    and the removal fails (a locked file); the [OSError] is swallowed, the
    error is re-raised, and the file is still at the destination. *)
Lemma download_with_requests_leaves_file_cex :
  let '(r, w') := download_with_requests fx_env_locked (fx_downloader "aria2c" true)
                    fx_url fx_dest fx_world_with_file in
  r = Err (RequestException "Connection broken") /\ path_exists (w_fs w') fx_dest = true.
Proof. vm_compute. split; reflexivity. Qed.

(** C6. The direct-first ordering ([fallback_downloader = "requests_only"])
    with version 67890 resolvable, the direct download answering 404 and no
    external tool installed: the error raised is the external strategy's
    alone, the ["HTTP 404"] of the direct attempt (which did run) is
    dropped; the tools-first ordering on the same scenario combines both. *)
Theorem download_direct_first_drops_primary_error :
  fst (load_fast_lora fx_env (fx_args "requests_only") fx_world_empty)
    = Err (RuntimeError "No compatible external downloader found (install aria2c, wget, or curl)") /\
  In (EGet fx_url) (w_log (snd (load_fast_lora fx_env (fx_args "requests_only") fx_world_empty))) /\
  fst (load_fast_lora fx_env (fx_args "aria2c") fx_world_empty)
    = Err (RuntimeError "No compatible external downloader found (install aria2c, wget, or curl); HTTP 404").
Proof. vm_compute. split; [reflexivity|]. split; [tauto | reflexivity]. Qed.

(** C9. [_load_history] catches [OSError] and [JSONDecodeError] only: a
    history file holding the byte 0xFF raises [UnicodeDecodeError], and a
    well-formed JSON list is returned as it is, not as an empty ledger. *)
Theorem load_history_not_total :
  load_history (HBytes [Byte.xff])
    = Err (UnicodeDecodeError "'utf-8' codec can't decode byte: invalid start byte") /\
  load_history (HBytes [Byte.x5b; Byte.x5d]) = Ok (JArr []) /\
  load_history HMissing = Ok (JObj []) /\
  load_history (HBytes [Byte.x7b]) = Ok (JObj []).
Proof. vm_compute. repeat split. Qed.

(** C10 (amended). [_download_with_external] first removes a file present
    at the destination (best effort: the removal is the first event, before
    any tool runs); when the platform lets the file be removed and the
    strategy raises, no file is at the destination afterwards. *)
Theorem download_with_external_cleans_up (E : Env) (d : Downloader) (url dest : string)
    (w : World) :
  let '(r, w') := download_with_external E d url dest w in
  (path_exists (w_fs w) dest = true -> exists l, w_log w' = l ++ ERemove dest :: w_log w) /\
  (e_can_remove E dest = true ->
     match r with
     | Err _ => path_exists (w_fs w') dest = false
     | Ok _ => True
     end).
Proof.
  destruct (remove_if_exists_log E dest w) as (w1 & Hr & Hl).
  assert (Hg : e_can_remove E dest = true -> path_exists (w_fs w1) dest = false).
  { intros Hc. destruct (remove_if_exists_spec E dest w Hc) as (w1' & Hr' & Hg' & _).
    rewrite Hr in Hr'. injection Hr' as <-. exact Hg'. }
  unfold download_with_external. unfold bind at 1. rewrite Hr.
  destruct (external_commands E d url dest) as [|c cs].
  - simpl. split.
    + intros Ex. rewrite Hl, Ex. exists []. reflexivity.
    + exact Hg.
  - pose proof (run_commands_log E dest (c :: cs) [] w1) as (l & Hlr).
    assert (Hcl : e_can_remove E dest = true ->
              let '(r, w') := run_commands E dest (c :: cs) [] w1 in
              match r with Ok None => True | _ => path_exists (w_fs w') dest = false end).
    { intros Hc. pose proof (run_commands_cleanup E dest Hc (c :: cs) [] w1 (Hg Hc)) as H.
      destruct (run_commands E dest (c :: cs) [] w1) as [r w']. exact (proj2 H). }
    unfold bind. destruct (run_commands E dest (c :: cs) [] w1) as [r w'] eqn:Er.
    simpl in Hlr.
    assert (Hlog : path_exists (w_fs w) dest = true -> exists l0, w_log w' = l0 ++ ERemove dest :: w_log w).
    { intros Ex. rewrite Hlr, Hl, Ex. exists l. reflexivity. }
    destruct r as [[ms|]|e].
    + destruct ms as [|m ms']; simpl; split; try exact Hlog;
        intros Hc; specialize (Hcl Hc); exact Hcl.
    + simpl. split; [exact Hlog | intros; exact I].
    + simpl. split; [exact Hlog|]. intros Hc. specialize (Hcl Hc). exact Hcl.
Qed.

(** Witness of C10: the first removal is logged, on the scenario where a
    copy is on disk and removal is permitted. *)
Lemma download_with_external_cleans_up_witness :
  path_exists (w_fs fx_world_with_file) fx_dest = true /\ e_can_remove fx_env fx_dest = true /\
  let '(r, w') := download_with_external fx_env (fx_downloader "aria2c" true) fx_url fx_dest fx_world_with_file in
  (exists l, w_log w' = l ++ ERemove fx_dest :: w_log fx_world_with_file) /\
  match r with Err _ => path_exists (w_fs w') fx_dest = false | Ok _ => True end.
Proof.
  pose proof (download_with_external_cleans_up fx_env (fx_downloader "aria2c" true) fx_url fx_dest
                fx_world_with_file) as H.
  split; [reflexivity|]. split; [reflexivity|].
  destruct (download_with_external _ _ _ _ _) as [r w'].
  destruct H as [H1 H2]. split; [apply H1; reflexivity | apply H2; reflexivity].
Defined.

(** C10 counterexample: aria2c is installed, a copy is on disk, removal
    fails (a locked file) and aria2c exits with status 1; the strategy
    raises and the earlier copy is still at the destination. *)
Lemma download_with_external_leaves_file_cex :
  let '(r, w') := download_with_external fx_env_locked (fx_downloader "aria2c" true)
                    fx_url fx_dest fx_world_with_file in
  (exists e, r = Err e) /\ path_exists (w_fs w') fx_dest = true.
Proof. vm_compute. split; [eexists; reflexivity | reflexivity]. Qed.

(* ------------------------------------------------------------------ *)
(** ** The claims on concrete inputs *)

Lemma parse_lora_air_correct_witness :
  parse_lora_air "abc@1" = Err (ValueError "Invalid model ID provided") /\
  parse_lora_air "12@x" = Err (ValueError "Invalid version ID provided") /\
  "12@34@5"%string = ("12" ++ "@" ++ "34@5")%string /\ str_forall not_at "12" = true.
Proof.
  destruct parse_lora_air_correct as (_ & _ & _ & _ & H5 & H6 & H7).
  split; [apply (H5 "abc@1" "abc" (Some "1")); [discriminate | reflexivity | reflexivity]|].
  split; [apply (H6 "12@x" "12" "x" 12); [discriminate | reflexivity | reflexivity | discriminate | reflexivity]|].
  apply H7. reflexivity.
Defined.

Lemma record_entry_idempotent_witness :
  let '(h1, saved1) := record_entry ∅ 12345 (Some 67890) fx_file fx_url in
  saved1 = true /\
  version_files h1 12345 (Some 67890) = Some [new_file_record fx_file fx_url] /\
  record_entry h1 12345 (Some 67890) fx_file fx_url = (h1, false).
Proof.
  pose proof (record_entry_idempotent ∅ 12345 (Some 67890) fx_file fx_url) as H.
  destruct (record_entry ∅ 12345 (Some 67890) fx_file fx_url) as [h1 s1] eqn:Er.
  assert (Hs : s1 = true).
  { change s1 with (snd (h1, s1)). rewrite <- Er. vm_compute. reflexivity. }
  destruct H as (H1 & H2 & _).
  destruct (record_entry h1 12345 (Some 67890) fx_file fx_url) as [h2 s2].
  destruct H1 as (-> & -> & _).
  split; [exact Hs|]. split; [|reflexivity].
  rewrite (H2 Hs). vm_compute. reflexivity.
Defined.

Lemma find_cached_entry_correct_witness :
  find_cached_entry [fx_dest] [fx_dir] fx_ledger 12345 (Some 67890) = Some fx_file /\
  find_cached_entry [] [fx_dir] fx_ledger 12345 (Some 67890) = None /\
  exists e, In e (default [] (fx_ledger !! int_repr 12345)) /\ vr_id e = Some 67890 /\
    In fx_file (listed_names (default [] (vr_files e))) /\
    still_on_disk [fx_dest] [fx_dir] fx_file = true.
Proof.
  assert (Hhit : find_cached_entry [fx_dest] [fx_dir] fx_ledger 12345 (Some 67890) = Some fx_file)
    by (vm_compute; reflexivity).
  split; [exact Hhit|]. split.
  - apply (find_cached_entry_correct [] [fx_dir] fx_ledger 12345 (Some 67890)).
    intros n _. vm_compute. reflexivity.
  - exact (proj2 (proj2 (find_cached_entry_correct [fx_dest] [fx_dir] fx_ledger 12345 (Some 67890)))
             67890 fx_file eq_refl Hhit).
Defined.

Lemma load_fast_lora_short_circuits_witness :
  load_fast_lora fx_env fx_args_override fx_world_empty
  = (Ok fx_file, fx_world_empty) /\
  load_fast_lora fx_env_cached (fx_args "aria2c") {| w_fs := [fx_dest]; w_log := [] |}
  = (Ok fx_file, {| w_fs := [fx_dest]; w_log := [] |}).
Proof.
  split.
  - apply (proj1 (load_fast_lora_short_circuits fx_env fx_args_override fx_world_empty)); discriminate.
  - apply (proj2 (load_fast_lora_short_circuits fx_env_cached (fx_args "aria2c") _) 12345 (Some 67890) fx_ledger).
    + right. reflexivity.
    + reflexivity.
    + reflexivity.
    + vm_compute. reflexivity.
Defined.

Lemma resolve_selects_primary_file_witness :
  select_file [fx_file_a; fx_file_b] fx_file_a = fx_file_b /\
  select_file [fx_file_a] fx_file_a = fx_file_a /\
  resolve_with_details (fx_downloader "aria2c" true) 12345 (Some 67890)
    {| vd_id := Some 67890; vd_files := Some [fx_file_a; fx_file_b]; vd_downloadUrl := None |}
    fx_world_empty
  = (Ok (12345, Some 67890, "B"%string, "https://example.org/b"%string), fx_world_empty).
Proof.
  destruct (resolve_selects_primary_file fx_env (fx_downloader "aria2c" true) 12345 (Some 67890)
              {| vd_id := Some 67890; vd_files := Some [fx_file_a; fx_file_b]; vd_downloadUrl := None |}
              fx_world_empty) as [_ H].
  destruct (H fx_file_a [fx_file_b] eq_refl) as (H1 & _ & H3).
  destruct (resolve_selects_primary_file fx_env (fx_downloader "aria2c" true) 12345 (Some 67890)
              {| vd_id := Some 67890; vd_files := Some [fx_file_a]; vd_downloadUrl := None |}
              fx_world_empty) as [_ H'].
  destruct (H' fx_file_a [] eq_refl) as (_ & H2' & _).
  split; [apply (H1 [fx_file_a] fx_file_b []); [reflexivity | repeat constructor | reflexivity]|].
  split; [apply H2'; repeat constructor|].
  rewrite H3; [reflexivity | reflexivity | reflexivity].
Defined.

Lemma resolve_degraded_path_witness :
  exists w', resolve_download fx_env_degraded (fx_downloader "aria2c" true) 12345 (Some 67890)
               fx_world_empty
             = (Ok (12345, Some 67890, placeholder_name 67890,
                    with_token (fx_downloader "aria2c" true) (download_template 67890)), w').
Proof.
  destruct (resolve_degraded_path fx_env_degraded (fx_downloader "aria2c" true) 12345 67890 404 None
              fx_world_empty) as (file_name & w' & Hr & _ & Hh);
    [lia | reflexivity | lia |].
  exists w'. rewrite Hr, Hh; [reflexivity | exact I].
Defined.

(* ------------------------------------------------------------------ *)
(** ** Further properties of the code *)

Lemma substring_0_length (s : string) : substring 0 (String.length s) s = s.
Proof. induction s as [|c s IH]; simpl; [reflexivity | now rewrite IH]. Qed.

Lemma substring_0_app (p t : string) :
  substring 0 (String.length p) (p ++ t)%string = p.
Proof. induction p as [|c p IH]; ssimpl; [destruct t; reflexivity | now rewrite IH]. Qed.

Lemma substring_shift (s r : string) (m : nat) :
  substring (String.length s) m (s ++ r)%string = substring 0 m r.
Proof. induction s as [|c s IH]; ssimpl; [reflexivity | exact IH]. Qed.

Lemma str_app_length (a b : string) :
  String.length (a ++ b)%string = (String.length a + String.length b)%nat.
Proof. induction a as [|c a IH]; ssimpl; [reflexivity | now rewrite IH]. Qed.

(** [sub in s] holds when [sub] occurs in [s]. *)
Lemma str_contains_middle (s p t : string) :
  str_contains p (s ++ p ++ t)%string = true.
Proof.
  unfold str_contains. destruct (index 0 p (s ++ p ++ t)) eqn:Hi; [reflexivity|].
  destruct p as [|c p'].
  - destruct (s ++ "" ++ t)%string; simpl in Hi; discriminate.
  - exfalso. apply (index_correct3 0 (String.length s) (String c p') _ Hi); [discriminate | lia |].
    rewrite substring_shift. apply substring_0_app.
Qed.

(** [_with_token] appends the token parameter at most once: its result
    extends the URL, and applying it again changes nothing. *)
Theorem with_token_idempotent (d : Downloader) (url : string) :
  with_token d (with_token d url) = with_token d url /\
  exists suffix, with_token d url = (url ++ suffix)%string.
Proof.
  unfold with_token. destruct (d_token d) as [t|]; [|split; [reflexivity | exists ""%string; symmetry; apply str_app_nil_r]].
  destruct (String.eqb t "") eqn:Ht.
  - rewrite ?Ht. split; [reflexivity | exists ""%string; symmetry; apply str_app_nil_r].
  - destruct (str_contains "token=" url) eqn:Hc.
    + rewrite ?Ht, ?Hc. split; [reflexivity | exists ""%string; symmetry; apply str_app_nil_r].
    + rewrite ?Ht.
      replace (str_contains "token=" _) with true; [split; [reflexivity | eexists; reflexivity]|].
      symmetry. rewrite <- str_app_assoc. apply str_contains_middle.
Qed.

Lemma is_one_of_cons (s x : string) (l : list string) :
  is_one_of s (x :: l) = (String.eqb s x || is_one_of s l)%bool.
Proof. reflexivity. Qed.

Lemma tool_command_other (d : Downloader) (tool url destination : string) :
  is_one_of tool ["aria2c"; "wget"; "curl"] = false ->
  tool_command d tool url destination = None.
Proof.
  rewrite !is_one_of_cons. unfold is_one_of. simpl.
  intros H. apply orb_false_iff in H as [H1 H]. apply orb_false_iff in H as [H2 H].
  apply orb_false_iff in H as [H3 _].
  unfold tool_command. rewrite H1, H2, H3. reflexivity.
Qed.

(** With the fallback [requests_only], or any name other than [auto],
    [aria2c], [wget] and [curl], [_external_commands] builds no command,
    whatever tools are installed (a custom tool name is never run), so
    [_download_with_external] only removes the destination and raises
    "No compatible external downloader found". *)
Theorem external_commands_unsupported_fallback (E : Env) (d : Downloader) (url destination : string)
    (w : World) :
  is_one_of (d_fallback d) ["auto"; "aria2c"; "wget"; "curl"] = false ->
  external_commands E d url destination = [] /\
  download_with_external E d url destination w =
    (Err (RuntimeError "No compatible external downloader found (install aria2c, wget, or curl)"),
     snd (remove_if_exists E destination w)).
Proof.
  intros H.
  assert (Hc : external_commands E d url destination = []).
  { unfold external_commands.
    destruct (String.eqb (d_fallback d) "requests_only") eqn:Hr; [reflexivity|].
    unfold fallback_order.
    replace (is_one_of (d_fallback d) ["auto"; "aria2c"; "wget"; "curl"; "requests_only"]) with false.
    - simpl. rewrite tool_command_other.
      + destruct (e_which E (d_fallback d)); reflexivity.
      + revert H. rewrite !is_one_of_cons. unfold is_one_of. simpl.
        intros H. apply orb_false_iff in H as [_ H]. exact H.
    - revert H. rewrite !is_one_of_cons. unfold is_one_of. simpl. rewrite Hr.
      intros H. rewrite orb_false_r in H. rewrite orb_false_r. symmetry. exact H. }
  split; [exact Hc|].
  unfold download_with_external, bind at 1.
  destruct (remove_if_exists_log E destination w) as (w1 & Hr & _). rewrite Hr, Hc. reflexivity.
Qed.

(** For the fallbacks [auto], [aria2c], [wget] and [curl], the commands
    are one per installed tool, in the order aria2c, wget, curl, restricted
    to the chosen one (all three for [auto]). *)
Theorem external_commands_order (E : Env) (d : Downloader) (url destination : string) :
  is_one_of (d_fallback d) ["auto"; "aria2c"; "wget"; "curl"] = true ->
  map (hd ""%string) (external_commands E d url destination) =
  List.filter (e_which E)
    (List.filter (fun t => String.eqb (d_fallback d) "auto" || String.eqb (d_fallback d) t)
       ["aria2c"; "wget"; "curl"]).
Proof.
  intros H. unfold is_one_of in H. apply existsb_exists in H as (f & Hin & Hf).
  apply String.eqb_eq in Hf.
  unfold external_commands, fallback_order.
  simpl in Hin. destruct Hin as [<-|[<-|[<-|[<-|[]]]]]; rewrite Hf; simpl;
    destruct (e_which E "aria2c"); destruct (e_which E "wget"); destruct (e_which E "curl");
    reflexivity.
Qed.

(** Every external command runs an installed aria2c, wget or curl on the
    download URL; with a (non-empty) token every command carries the
    header "Authorization: Bearer <token>" as an argument. *)
Theorem external_commands_contents (E : Env) (d : Downloader) (url destination : string)
    (command : list string) :
  In command (external_commands E d url destination) ->
  (exists tool, hd_error command = Some tool /\ e_which E tool = true /\
     In tool ["aria2c"; "wget"; "curl"]) /\
  In url command /\
  (forall t, d_token d = Some t -> t <> ""%string ->
     In ("Authorization: Bearer " ++ t)%string command).
Proof.
  unfold external_commands. destruct (String.eqb (d_fallback d) "requests_only"); [intros []|].
  intros H. apply in_flat_map in H as (tool & _ & H).
  destruct (e_which E tool) eqn:Hw; [|destruct H].
  destruct (tool_command d tool url destination) as [c|] eqn:Ht; [|destruct H].
  destruct H as [<-|[]].
  unfold tool_command in Ht.
  destruct (String.eqb_spec tool "aria2c") as [->|N1];
    [|destruct (String.eqb_spec tool "wget") as [->|N2];
      [|destruct (String.eqb_spec tool "curl") as [->|N3]; [|discriminate]]];
    injection Ht as <-;
    (split; [eexists; split; [reflexivity | split; [exact Hw | simpl; tauto]]|]);
    (split; [|intros t Htok Hne; rewrite Htok; apply String.eqb_neq in Hne; rewrite Hne]);
    simpl; rewrite ?in_app_iff; simpl; tauto.
Qed.

Lemma download_with_external_no_commands (E : Env) (d : Downloader) (url destination : string)
    (w : World) :
  external_commands E d url destination = [] ->
  download_with_external E d url destination w =
    (Err (RuntimeError "No compatible external downloader found (install aria2c, wget, or curl)"),
     snd (remove_if_exists E destination w)).
Proof.
  intros Hc. unfold download_with_external, bind at 1.
  destruct (remove_if_exists_log E destination w) as (w1 & Hr & _). rewrite Hr, Hc. reflexivity.
Qed.

Ltac unfold_download Hres :=
  unfold download; cbv beta iota delta [bind emit try_except ret raise];
  rewrite Hres; cbv beta iota.

(** Tools first: when the external strategy succeeds, [download] returns
    at once; the direct download is never attempted. *)
Theorem download_tools_first_success (E : Env) (d : Downloader) (model_id : Z)
    (version_id : option Z) (w : World) (m' : Z) (v' : option Z) (file_name url : string)
    (w1 w2 : World) :
  d_prefer_tools_first d = true ->
  resolve_download E d model_id version_id w = (Ok (m', v', file_name, url), w1) ->
  download_with_external E d url (path_join (d_download_dir d) file_name) (after_makedirs d w1)
    = (Ok tt, w2) ->
  download E d model_id version_id w = (Ok (file_name, url), w2).
Proof.
  intros Hp Hres Hx. unfold_download Hres. rewrite Hp. unfold after_makedirs in Hx.
  rewrite Hx. reflexivity.
Qed.

(** Direct first: when the direct download succeeds, [download] returns
    at once; no external tool is run. *)
Theorem download_direct_first_success (E : Env) (d : Downloader) (model_id : Z)
    (version_id : option Z) (w : World) (m' : Z) (v' : option Z) (file_name url : string)
    (w1 w2 : World) :
  d_prefer_tools_first d = false ->
  resolve_download E d model_id version_id w = (Ok (m', v', file_name, url), w1) ->
  download_with_requests E d url (path_join (d_download_dir d) file_name) (after_makedirs d w1)
    = (Ok tt, w2) ->
  download E d model_id version_id w = (Ok (file_name, url), w2).
Proof.
  intros Hp Hres Hx. unfold_download Hres. rewrite Hp. unfold after_makedirs in Hx.
  rewrite Hx. reflexivity.
Qed.

(** Tools first, both strategies failing: the external strategy's
    [RuntimeError] and the direct download's exception are combined into
    one [RuntimeError] "<external>; <direct>". *)
Theorem download_tools_first_both_fail (E : Env) (d : Downloader) (model_id : Z)
    (version_id : option Z) (w : World) (m' : Z) (v' : option Z) (file_name url : string)
    (w1 w2 w3 : World) (external_error primary_error : exn) :
  d_prefer_tools_first d = true ->
  resolve_download E d model_id version_id w = (Ok (m', v', file_name, url), w1) ->
  download_with_external E d url (path_join (d_download_dir d) file_name) (after_makedirs d w1)
    = (Err external_error, w2) ->
  is_runtime_error external_error = true ->
  download_with_requests E d url (path_join (d_download_dir d) file_name) w2
    = (Err primary_error, w3) ->
  download E d model_id version_id w =
    (Err (RuntimeError (exn_str external_error ++ "; " ++ exn_str primary_error)), w3).
Proof.
  intros Hp Hres Hx Hrt Hq. unfold_download Hres. rewrite Hp. unfold after_makedirs in Hx.
  rewrite Hx, Hrt. cbv beta iota. rewrite Hq. reflexivity.
Qed.

(** Tools first: an exception of the external strategy other than a
    [RuntimeError] (an [OSError] of [subprocess.run] other than
    [FileNotFoundError], say) propagates out of [download]; the direct
    download is not attempted. *)
Theorem download_tools_first_other_error (E : Env) (d : Downloader) (model_id : Z)
    (version_id : option Z) (w : World) (m' : Z) (v' : option Z) (file_name url : string)
    (w1 w2 : World) (e : exn) :
  d_prefer_tools_first d = true ->
  resolve_download E d model_id version_id w = (Ok (m', v', file_name, url), w1) ->
  download_with_external E d url (path_join (d_download_dir d) file_name) (after_makedirs d w1)
    = (Err e, w2) ->
  is_runtime_error e = false ->
  download E d model_id version_id w = (Err e, w2).
Proof.
  intros Hp Hres Hx Hrt. unfold_download Hres. rewrite Hp. unfold after_makedirs in Hx.
  rewrite Hx, Hrt. reflexivity.
Qed.

(** Direct first with the fallback [requests_only] (the downloader
    [load_fast_lora] builds for it): when the direct download fails, the
    error raised is always "No compatible external downloader found", the
    direct download's exception is dropped, and no tool is run. *)
Theorem download_requests_only_failure (E : Env) (d : Downloader) (model_id : Z)
    (version_id : option Z) (w : World) (m' : Z) (v' : option Z) (file_name url : string)
    (w1 w2 : World) (primary_error : exn) :
  d_fallback d = "requests_only"%string ->
  d_prefer_tools_first d = false ->
  resolve_download E d model_id version_id w = (Ok (m', v', file_name, url), w1) ->
  download_with_requests E d url (path_join (d_download_dir d) file_name) (after_makedirs d w1)
    = (Err primary_error, w2) ->
  download E d model_id version_id w =
    (Err (RuntimeError "No compatible external downloader found (install aria2c, wget, or curl)"),
     snd (remove_if_exists E (path_join (d_download_dir d) file_name) w2)).
Proof.
  intros Hf Hp Hres Hq. unfold_download Hres. rewrite Hp. unfold after_makedirs in Hq.
  rewrite Hq. cbv beta iota. cbn [negb]. cbv beta iota.
  rewrite download_with_external_no_commands.
  - reflexivity.
  - unfold external_commands. rewrite Hf. reflexivity.
Qed.

(** [_resolve_download] without a version, or with version 0 (falsy in
    [if version_id:]), fetches the model and uses its first version; a
    failed model fetch or a model without versions raises, there is no
    degraded path. With a non-zero version, only a [RuntimeError] of the
    version fetch leads to the degraded path: any other exception of the
    fetch (a connection error, say) propagates. *)
Theorem resolve_download_error_paths (E : Env) (d : Downloader) (model_id : Z) (w : World) :
  resolve_download E d model_id (Some 0) w = resolve_download E d model_id None w /\
  (forall status body, e_model_api E model_id = ApiResp status body -> status <> 200 ->
     resolve_download E d model_id None w =
     (Err (RuntimeError ("API request failed with status " ++ int_repr status)),
      {| w_fs := w_fs w; w_log := EFetch ("models/" ++ int_repr model_id) :: w_log w |})) /\
  (forall details, e_model_api E model_id = ApiResp 200 (Some details) ->
     default [] (md_modelVersions details) = [] ->
     fst (resolve_download E d model_id None w) = Err (RuntimeError "Model has no versions available")) /\
  (forall v e, v <> 0 -> e_version_api E v = ApiRaise e -> is_runtime_error e = false ->
     resolve_download E d model_id (Some v) w =
     (Err e, {| w_fs := w_fs w; w_log := EFetch ("model-versions/" ++ int_repr v) :: w_log w |})).
Proof.
  split; [reflexivity|]. split; [|split].
  - intros status body Ha Hne. unfold resolve_download, fetch, bind, emit. simpl.
    rewrite Ha. apply Z.eqb_neq in Hne. rewrite Hne. reflexivity.
  - intros details Ha Hv. unfold resolve_download, fetch, bind, emit. simpl.
    rewrite Ha. simpl. rewrite Hv. reflexivity.
  - intros v e Hv Ha Hr. unfold resolve_download. apply Z.eqb_neq in Hv. rewrite Hv.
    unfold try_except, fetch, bind, emit. simpl. rewrite Ha. simpl. rewrite Hr. reflexivity.
Qed.

(** Lines 125-134 of [_resolve_download]: the URL is the chosen file's,
    else the version's; without one it raises "No download URL returned by
    CivitAI"; a chosen file without a name is named after the last path
    segment of that URL, taken before the token is appended. *)
Theorem resolve_with_details_url_and_name (d : Downloader) (model_id : Z)
    (version_id : option Z) (details : VersionDetails) (w : World)
    (f0 : FileInfo) (rest : list FileInfo) :
  default [] (vd_files details) = f0 :: rest ->
  let pf := select_file (f0 :: rest) f0 in
  let u := str_or (fi_downloadUrl pf) (vd_downloadUrl details) in
  (str_truthy u = false ->
   resolve_with_details d model_id version_id details w =
   (Err (RuntimeError "No download URL returned by CivitAI"), w)) /\
  (str_truthy u = true -> str_truthy (fi_name pf) = false ->
   resolve_with_details d model_id version_id details w =
   (Ok (model_id, version_id, basename (default "" u), with_token d (default "" u)), w)).
Proof.
  intros Hf pf u. split.
  - intros Hu. unfold resolve_with_details. rewrite Hf. fold pf. fold u. rewrite Hu. reflexivity.
  - intros Hu Hn. unfold resolve_with_details. rewrite Hf. fold pf. fold u. rewrite Hu, Hn.
    reflexivity.
Qed.

Lemma str_forall_app (p : ascii -> bool) (a b : string) :
  str_forall p (a ++ b)%string = (str_forall p a && str_forall p b)%bool.
Proof.
  induction a as [|c a IH]; ssimpl; [reflexivity|]. rewrite IH. apply andb_assoc.
Qed.

Lemma str_forall_rev (p : ascii -> bool) (s : string) :
  str_forall p (str_rev s) = str_forall p s.
Proof.
  induction s as [|c s IH]; [reflexivity|]. simpl. rewrite str_forall_app, IH. simpl.
  rewrite andb_true_r. apply andb_comm.
Qed.

Lemma lstrip_by_none (p : ascii -> bool) (s : string) :
  str_forall (fun c => negb (p c)) s = true -> lstrip_by p s = s.
Proof.
  destruct s as [|c s]; [reflexivity|]. simpl. intros H.
  apply andb_true_iff in H as [H _]. destruct (p c); [discriminate | reflexivity].
Qed.

(** Stripping double quotes from a quoted name without quotes gives the name. *)
Lemma strip_quotes (n : string) :
  str_forall (fun c => negb (Ascii.eqb c dquote)) n = true ->
  strip_by (fun c => Ascii.eqb c dquote) (String dquote (n ++ String dquote "")) = n.
Proof.
  intros H. unfold strip_by, rstrip_by. simpl.
  destruct n as [|c n'] eqn:En; [reflexivity|]. rewrite <- En in *.
  assert (Hl : lstrip_by (fun c => Ascii.eqb c dquote) (n ++ String dquote "")%string
               = (n ++ String dquote "")%string).
  { subst n. rewrite str_app_cons. simpl. simpl in H. apply andb_true_iff in H as [H _].
    destruct (Ascii.eqb c dquote); [discriminate | reflexivity]. }
  rewrite Hl, str_rev_snoc. simpl.
  rewrite lstrip_by_none by (rewrite str_forall_rev; exact H).
  apply str_rev_involutive.
Qed.

Lemma substring_0_ge (s : string) (m : nat) :
  (String.length s <= m)%nat -> substring 0 m s = s.
Proof.
  revert m. induction s as [|c s IH]; intros m Hm; [destruct m; reflexivity|].
  destruct m as [|m]; simpl in Hm; [lia|]. simpl. f_equal. apply IH. lia.
Qed.

Lemma after_marker_attachment (x : string) :
  after_marker "filename=" ("attachment; filename=" ++ x)%string = x.
Proof.
  unfold after_marker. rewrite !str_app_cons, str_app_nil.
  destruct x as [|a x']; simpl; [reflexivity|].
  f_equal. apply substring_0_ge. lia.
Qed.

(** [_probe_filename]: a successful HEAD whose Content-Disposition is
    [attachment; filename=] followed by a name in double quotes gives that
    name (without the quotes); a
    status of 400 or more, or a request exception, gives none. *)
Theorem probe_filename_content_disposition (E : Env) (url : string) (w : World) :
  (forall status name final_url, status < 400 -> name <> ""%string ->
   str_forall (fun c => negb (Ascii.eqb c dquote)) name = true ->
   e_head E url = HeadResp status
     (Some ("attachment; filename=" ++ String dquote (name ++ String dquote ""))%string) final_url ->
   fst (probe_filename E url w) = Ok (Some name)) /\
  (forall status cd final_url, 400 <= status -> e_head E url = HeadResp status cd final_url ->
   fst (probe_filename E url w) = Ok None) /\
  (forall msg, e_head E url = HeadRequestException msg -> fst (probe_filename E url w) = Ok None).
Proof.
  split; [|split].
  - intros status name final_url Hs Hne Hq Hh.
    unfold probe_filename, bind, emit. simpl. rewrite Hh.
    replace (400 <=? status) with false by (symmetry; apply Z.leb_gt; lia).
    replace (str_contains "filename=" _) with true
      by (symmetry; exact (str_contains_middle "attachment; " "filename=" _)).
    replace (String.eqb ("attachment; filename=" ++ _)%string "") with false
      by (rewrite !str_app_cons; reflexivity).
    simpl. rewrite after_marker_attachment, strip_quotes by exact Hq.
    apply String.eqb_neq in Hne. rewrite Hne. reflexivity.
  - intros status cd final_url Hs Hh. unfold probe_filename, bind, emit. simpl. rewrite Hh.
    replace (400 <=? status) with true by (symmetry; apply Z.leb_le; lia). reflexivity.
  - intros msg Hh. unfold probe_filename, bind, emit. simpl. rewrite Hh. reflexivity.
Qed.

(** [_record_entry] lists the file under (model_id, version_id)
    afterwards, whether it appended it or found it there, and leaves the
    entries of every other model as they were. *)
Theorem record_entry_lists_file (h : ledger) (model_id : Z) (version_id : option Z)
    (file_name download_url : string) :
  let h1 := fst (record_entry h model_id version_id file_name download_url) in
  (forall k, k <> int_repr model_id -> h1 !! k = h !! k) /\
  exists e, find_version (default [] (h1 !! int_repr model_id)) version_id = Some e /\
    existsb (file_has_name file_name) (default [] (vr_files e)) = true.
Proof.
  unfold record_entry. simpl.
  pose proof (record_in_entries_spec (default [] (h !! int_repr model_id)) version_id
                file_name download_url) as Hs.
  destruct (record_in_entries _ version_id file_name download_url) as [es'|] eqn:Er; simpl.
  - split.
    + intros k Hk. rewrite lookup_insert_ne; [reflexivity | congruence].
    + rewrite lookup_insert_eq. simpl. destruct Hs as (e' & Hf & Hl).
      exists e'. split; [exact Hf|]. rewrite Hl, existsb_app. simpl.
      rewrite file_has_name_new. apply orb_true_r.
  - split; [reflexivity | exact Hs].
Qed.

Lemma remove_if_exists_fs (E : Env) (p : string) (w : World) :
  e_can_remove E p = true -> path_exists (w_fs (snd (remove_if_exists E p w))) p = false.
Proof.
  intros Hc. destruct (remove_if_exists_spec E p w Hc) as (w' & Hr & Hg & _).
  rewrite Hr. exact Hg.
Qed.



Lemma lstrip_spaces (a t : string) :
  str_forall is_space a = true -> lstrip_by is_space (a ++ t)%string = lstrip_by is_space t.
Proof.
  induction a as [|c a IH]; intros H; [reflexivity|].
  simpl in H. apply andb_true_iff in H as [H1 H2]. rewrite str_app_cons. simpl. rewrite H1.
  exact (IH H2).
Qed.

Lemma str_rev_app (a b : string) : str_rev (a ++ b)%string = (str_rev b ++ str_rev a)%string.
Proof.
  induction a as [|c a IH]; ssimpl.
  - rewrite str_app_nil_r. reflexivity.
  - rewrite IH, str_app_assoc. reflexivity.
Qed.

(** [s.strip()] removes whitespace padding around a text that neither
    starts nor ends with whitespace. *)
Lemma py_strip_pad (a s b : string) :
  str_forall is_space a = true -> str_forall is_space b = true ->
  (exists c0 s0, s = String c0 s0 /\ is_space c0 = false) ->
  (exists s1 c1, s = (s1 ++ String c1 "")%string /\ is_space c1 = false) ->
  py_strip (a ++ s ++ b)%string = s.
Proof.
  intros Ha Hb (c0 & s0 & Hs0 & Hc0) (s1 & c1 & Hs1 & Hc1).
  unfold py_strip, strip_by, rstrip_by. rewrite lstrip_spaces by exact Ha.
  assert (Hl : lstrip_by is_space (s ++ b)%string = (s ++ b)%string).
  { rewrite Hs0, str_app_cons. simpl. rewrite Hc0. reflexivity. }
  rewrite Hl, str_rev_app, lstrip_spaces by (rewrite str_forall_rev; exact Hb).
  rewrite Hs1, str_rev_snoc. simpl. rewrite Hc1. rewrite <- str_rev_snoc, str_rev_involutive.
  reflexivity.
Qed.

Lemma space_not_at (s : string) : str_forall is_space s = true -> str_forall not_at s = true.
Proof.
  induction s as [|c s IH]; intros H; [reflexivity|].
  simpl in H. apply andb_true_iff in H as [H1 H2]. simpl. rewrite (IH H2), andb_true_r.
  unfold not_at. destruct (Ascii.eqb_spec c "@") as [->|]; [discriminate | reflexivity].
Qed.

Lemma int_signed_int_repr (z : Z) : int_signed (int_repr z) = Some z.
Proof.
  pose proof (py_int_int_repr z) as H. unfold py_int in H.
  rewrite strip_id in H by (apply int_repr_first || apply int_repr_last). exact H.
Qed.

Lemma py_int_pad (a b : string) (z : Z) :
  str_forall is_space a = true -> str_forall is_space b = true ->
  py_int (a ++ int_repr z ++ b)%string = Some z.
Proof.
  intros Ha Hb. unfold py_int. rewrite py_strip_pad by (assumption || apply int_repr_first || apply int_repr_last).
  apply int_signed_int_repr.
Qed.

(** [_parse_lora_air] checks for an empty identifier before stripping:
    an identifier of whitespace only raises "Invalid model ID provided",
    not "LORA AIR identifier required". Whitespace around the identifier
    and around the '@' is accepted (as [int()] accepts it). *)
Theorem parse_lora_air_whitespace :
  (forall s : string, s <> ""%string -> str_forall is_space s = true ->
     parse_lora_air s = Err (ValueError "Invalid model ID provided")) /\
  (forall (a b c e : string) (m v : Z),
     str_forall is_space a = true -> str_forall is_space b = true ->
     str_forall is_space c = true -> str_forall is_space e = true ->
     parse_lora_air (a ++ int_repr m ++ b ++ "@" ++ c ++ int_repr v ++ e)%string = Ok (m, Some v)).
Proof.
  split.
  - intros s Hne Hs. unfold parse_lora_air.
    destruct (String.eqb_spec s "") as [|_]; [contradiction|].
    assert (Hp : py_strip s = ""%string).
    { unfold py_strip, strip_by, rstrip_by.
      rewrite <- (str_app_nil_r s), lstrip_spaces by exact Hs. reflexivity. }
    rewrite Hp. reflexivity.
  - intros a b c e m v Ha Hb Hc He. unfold parse_lora_air.
    destruct (int_repr_first m) as (c0 & s0 & Hm0 & Hc0).
    destruct (String.eqb_spec (a ++ int_repr m ++ b ++ "@" ++ c ++ int_repr v ++ e)%string "") as [Hz|_].
    { exfalso. destruct a as [|x a']; [|discriminate].
      rewrite str_app_nil, Hm0 in Hz. discriminate. }
    destruct (int_repr_last v) as (s1 & c1 & Hv1 & Hc1).
    replace (a ++ int_repr m ++ b ++ "@" ++ c ++ int_repr v ++ e)%string
      with (a ++ (int_repr m ++ b ++ "@" ++ c ++ int_repr v) ++ e)%string
      by (rewrite !str_app_assoc; reflexivity).
    rewrite py_strip_pad; [| exact Ha | exact He | |].
    2:{ exists c0, (s0 ++ b ++ "@" ++ c ++ int_repr v)%string. rewrite Hm0. split; [reflexivity | exact Hc0]. }
    2:{ exists (int_repr m ++ b ++ "@" ++ c ++ s1)%string, c1. split; [|exact Hc1].
        rewrite Hv1, !str_app_assoc. reflexivity. }
    replace (int_repr m ++ b ++ "@" ++ c ++ int_repr v)%string
      with ((int_repr m ++ b) ++ String "@" (c ++ int_repr v))%string
      by (rewrite str_app_assoc; reflexivity).
    rewrite split_once_app.
    2:{ pose proof (int_repr_no_at m) as H1. pose proof (space_not_at b Hb) as H2.
        unfold not_at in H1, H2. rewrite str_forall_app, H1, H2. reflexivity. }
    replace (int_repr m ++ b)%string with (""%string ++ int_repr m ++ b)%string by reflexivity.
    rewrite py_int_pad by (reflexivity || exact Hb).
    destruct (String.eqb_spec (c ++ int_repr v)%string "") as [Hz|_].
    { exfalso. destruct c as [|x c']; [|discriminate]. rewrite str_app_nil in Hz.
      exact (int_repr_nonempty v Hz). }
    replace (c ++ int_repr v)%string with (c ++ int_repr v ++ "")%string
      by (rewrite str_app_nil_r; reflexivity).
    rewrite py_int_pad by (exact Hc || reflexivity). reflexivity.
Qed.

(** The constructor turns a token that strips to the empty string into no
    token. *)
Lemma mk_downloader_blank_token (key : string) (download_dir fallback : string)
    (download_chunks : Z) (prefer_tools_first : bool) :
  py_strip key = ""%string ->
  mk_downloader (Some key) download_dir fallback download_chunks prefer_tools_first =
  mk_downloader None download_dir fallback download_chunks prefer_tools_first.
Proof. intros H. unfold mk_downloader. simpl. rewrite H. reflexivity. Qed.

(** [load_fast_lora] prefers a non-empty [api_key] to the
    CIVITAI_API_TOKEN variable, and the downloader strips it: an [api_key]
    of whitespace only downloads with no token at all, exactly as with no
    key and no variable (the variable is not used). *)
Theorem download_and_record_blank_api_key (E : Env) (a : LoadArgs) (model_id : Z)
    (version_id : option Z) (history : ledger) (w : World) :
  a_api_key a <> ""%string -> py_strip (a_api_key a) = ""%string ->
  download_and_record E a model_id version_id history w =
  download_and_record (without_env_token E) (with_api_key a "") model_id version_id history w.
Proof.
  intros Hne Hb. unfold download_and_record. cbn [a_api_key with_api_key e_env_token without_env_token].
  apply String.eqb_neq in Hne. rewrite Hne. cbn [String.eqb].
  unfold bind.
  change (resolve_download_path (without_env_token E) (a_download_path (with_api_key a "")) w)
    with (resolve_download_path E (a_download_path a) w).
  destruct (resolve_download_path E (a_download_path a) w) as [[p|e] w1]; [|reflexivity].
  rewrite mk_downloader_blank_token by exact Hb.
  reflexivity.
Qed.

(** After a successful download, [load_fast_lora]'s last step returns the
    downloaded file name; it saves the ledger exactly when the file was
    not yet listed under (model_id, version_id), and the ledger it saves
    lists it there. *)
Theorem download_and_record_saves (E : Env) (a : LoadArgs) (model_id : Z) (version_id : option Z)
    (history : ledger) (w : World) (resolved_path : string) (w1 : World)
    (file_name download_url : string) (w2 : World) :
  resolve_download_path E (a_download_path a) w = (Ok resolved_path, w1) ->
  download E (mk_downloader (if String.eqb (a_api_key a) "" then e_env_token E else Some (a_api_key a))
                resolved_path (a_fallback_downloader a) (a_download_chunks a)
                (negb (String.eqb (a_fallback_downloader a) "requests_only")))
    model_id version_id w1 = (Ok (file_name, download_url), w2) ->
  let listed h := exists e, find_version (default [] (h !! int_repr model_id)) version_id = Some e /\
                    existsb (file_has_name file_name) (default [] (vr_files e)) = true in
  (listed history ->
   download_and_record E a model_id version_id history w = (Ok file_name, w2)) /\
  (~ listed history -> exists history',
   download_and_record E a model_id version_id history w =
     (Ok file_name, {| w_fs := w_fs w2; w_log := ESave history' :: w_log w2 |}) /\
   listed history').
Proof.
  intros Hp Hd listed.
  assert (Hdr : download_and_record E a model_id version_id history w =
    match record_in_entries (default [] (history !! int_repr model_id)) version_id
            file_name download_url with
    | Some es' => (Ok file_name, {| w_fs := w_fs w2;
                     w_log := ESave (<[int_repr model_id := es']> history) :: w_log w2 |})
    | None => (Ok file_name, w2)
    end).
  { unfold download_and_record, bind at 1. rewrite Hp. cbv beta iota.
    unfold bind at 1. rewrite Hd. cbv beta iota. unfold record_entry.
    destruct (record_in_entries _ version_id file_name download_url); reflexivity. }
  rewrite Hdr.
  pose proof (record_in_entries_spec (default [] (history !! int_repr model_id)) version_id
                file_name download_url) as Hs.
  split.
  - intros (e & Hf & Hl). rewrite (record_in_entries_listed _ _ _ _ e Hf Hl). reflexivity.
  - intros Hn. destruct (record_in_entries _ version_id file_name download_url) as [es'|] eqn:Er.
    + exists (<[int_repr model_id := es']> history). split; [reflexivity|].
      destruct Hs as (e' & Hf & Hl). exists e'. rewrite lookup_insert_eq. simpl.
      split; [exact Hf|]. rewrite Hl, existsb_app. simpl. rewrite file_has_name_new. apply orb_true_r.
    + exfalso. apply Hn. exact Hs.
Qed.

(* ------------------------------------------------------------------ *)
(** ** The further properties on concrete inputs *)

Lemma external_commands_unsupported_fallback_witness :
  external_commands fx_env_tools_ok (fx_downloader "axel" true) fx_url fx_dest = [] /\
  download_with_external fx_env_tools_ok (fx_downloader "axel" true) fx_url fx_dest fx_world_with_file =
    (Err (RuntimeError "No compatible external downloader found (install aria2c, wget, or curl)"),
     snd (remove_if_exists fx_env_tools_ok fx_dest fx_world_with_file)).
Proof.
  apply (external_commands_unsupported_fallback fx_env_tools_ok (fx_downloader "axel" true)
           fx_url fx_dest fx_world_with_file).
  reflexivity.
Defined.

Lemma external_commands_order_witness :
  map (hd ""%string) (external_commands fx_env_tools_ok (fx_downloader "auto" true) fx_url fx_dest)
    = ["aria2c"; "curl"]%string /\
  map (hd ""%string) (external_commands fx_env_tools_ok (fx_downloader "wget" true) fx_url fx_dest)
    = [].
Proof.
  split.
  - rewrite (external_commands_order fx_env_tools_ok (fx_downloader "auto" true) fx_url fx_dest)
      by reflexivity.
    reflexivity.
  - rewrite (external_commands_order fx_env_tools_ok (fx_downloader "wget" true) fx_url fx_dest)
      by reflexivity.
    reflexivity.
Defined.

Lemma external_commands_contents_witness :
  exists command,
    In command (external_commands fx_env_tools_ok (mk_downloader (Some " tok ") fx_dir "auto" 16 true)
                  fx_url fx_dest) /\
    hd_error command = Some "aria2c"%string /\
    In ("Authorization: Bearer " ++ "tok")%string command.
Proof.
  set (d := mk_downloader (Some " tok ") fx_dir "auto" 16 true).
  set (command := hd [] (external_commands fx_env_tools_ok d fx_url fx_dest)).
  assert (Hin : In command (external_commands fx_env_tools_ok d fx_url fx_dest))
    by (vm_compute; left; reflexivity).
  destruct (external_commands_contents fx_env_tools_ok d fx_url fx_dest command Hin)
    as (_ & _ & Hauth).
  exists command. split; [exact Hin|]. split; [vm_compute; reflexivity|].
  apply Hauth; [reflexivity | discriminate].
Defined.

Lemma download_tools_first_success_witness :
  exists w2, download fx_env_tools_ok (fx_downloader "aria2c" true) 12345 (Some 67890) fx_world_empty
             = (Ok (fx_file, fx_url), w2).
Proof.
  set (d := fx_downloader "aria2c" true).
  set (w1 := snd (resolve_download fx_env_tools_ok d 12345 (Some 67890) fx_world_empty)).
  eexists.
  apply (download_tools_first_success fx_env_tools_ok d 12345 (Some 67890) fx_world_empty
           12345 (Some 67890) fx_file fx_url w1
           (snd (download_with_external fx_env_tools_ok d fx_url (path_join (d_download_dir d) fx_file)
                   (after_makedirs d w1)))).
  - reflexivity.
  - vm_compute. reflexivity.
  - vm_compute. reflexivity.
Defined.

Lemma download_direct_first_success_witness :
  exists w2, download fx_env_tools_ok (fx_downloader "requests_only" false) 12345 (Some 67890)
               fx_world_empty = (Ok (fx_file, fx_url), w2).
Proof.
  set (d := fx_downloader "requests_only" false).
  set (w1 := snd (resolve_download fx_env_tools_ok d 12345 (Some 67890) fx_world_empty)).
  eexists.
  apply (download_direct_first_success fx_env_tools_ok d 12345 (Some 67890) fx_world_empty
           12345 (Some 67890) fx_file fx_url w1
           (snd (download_with_requests fx_env_tools_ok d fx_url (path_join (d_download_dir d) fx_file)
                   (after_makedirs d w1)))).
  - reflexivity.
  - vm_compute. reflexivity.
  - vm_compute. reflexivity.
Defined.

Lemma download_tools_first_both_fail_witness :
  exists w3, download fx_env (fx_downloader "aria2c" true) 12345 (Some 67890) fx_world_empty
    = (Err (RuntimeError ("No compatible external downloader found (install aria2c, wget, or curl)"
                          ++ "; " ++ "HTTP 404")), w3).
Proof.
  set (d := fx_downloader "aria2c" true).
  set (w1 := snd (resolve_download fx_env d 12345 (Some 67890) fx_world_empty)).
  set (dest := path_join (d_download_dir d) fx_file).
  set (w2 := snd (download_with_external fx_env d fx_url dest (after_makedirs d w1))).
  eexists.
  apply (download_tools_first_both_fail fx_env d 12345 (Some 67890) fx_world_empty
           12345 (Some 67890) fx_file fx_url w1 w2
           (snd (download_with_requests fx_env d fx_url dest w2))
           (RuntimeError "No compatible external downloader found (install aria2c, wget, or curl)")
           (RuntimeError "HTTP 404")).
  - reflexivity.
  - vm_compute. reflexivity.
  - vm_compute. reflexivity.
  - reflexivity.
  - vm_compute. reflexivity.
Defined.

Lemma download_tools_first_other_error_witness :
  exists w2, download fx_env_tools_oserror (fx_downloader "aria2c" true) 12345 (Some 67890)
               fx_world_empty = (Err (OSErr "[Errno 13] Permission denied"), w2).
Proof.
  set (d := fx_downloader "aria2c" true).
  set (w1 := snd (resolve_download fx_env_tools_oserror d 12345 (Some 67890) fx_world_empty)).
  eexists.
  apply (download_tools_first_other_error fx_env_tools_oserror d 12345 (Some 67890) fx_world_empty
           12345 (Some 67890) fx_file fx_url w1
           (snd (download_with_external fx_env_tools_oserror d fx_url
                   (path_join (d_download_dir d) fx_file) (after_makedirs d w1)))).
  - reflexivity.
  - vm_compute. reflexivity.
  - vm_compute. reflexivity.
  - reflexivity.
Defined.

Lemma download_requests_only_failure_witness :
  (exists w', download fx_env
               {| d_token := None; d_download_dir := fx_dir; d_fallback := "requests_only";
                  d_download_chunks := 16; d_prefer_tools_first := false |}
               12345 (Some 67890) fx_world_empty
             = (Err (RuntimeError "No compatible external downloader found (install aria2c, wget, or curl)"), w')) /\
  fst (download_with_requests fx_env
         {| d_token := None; d_download_dir := fx_dir; d_fallback := "requests_only";
            d_download_chunks := 16; d_prefer_tools_first := false |}
         fx_url fx_dest fx_world_empty) = Err (RuntimeError "HTTP 404").
Proof.
  split; [|vm_compute; reflexivity].
  set (d := {| d_token := None; d_download_dir := fx_dir; d_fallback := "requests_only";
               d_download_chunks := 16; d_prefer_tools_first := false |}).
  set (w1 := snd (resolve_download fx_env d 12345 (Some 67890) fx_world_empty)).
  eexists.
  apply (download_requests_only_failure fx_env d 12345 (Some 67890) fx_world_empty
           12345 (Some 67890) fx_file fx_url w1
           (snd (download_with_requests fx_env d fx_url (path_join (d_download_dir d) fx_file)
                   (after_makedirs d w1)))
           (RuntimeError "HTTP 404")).
  - reflexivity.
  - reflexivity.
  - vm_compute. reflexivity.
  - vm_compute. reflexivity.
Defined.

Lemma resolve_download_error_paths_witness :
  resolve_download fx_env (fx_downloader "aria2c" true) 12345 None fx_world_empty =
    (Err (RuntimeError ("API request failed with status " ++ int_repr 404)),
     {| w_fs := []; w_log := [EFetch ("models/" ++ int_repr 12345)] |}) /\
  resolve_download fx_env (fx_downloader "aria2c" true) 12345 (Some 0) fx_world_empty =
  resolve_download fx_env (fx_downloader "aria2c" true) 12345 None fx_world_empty.
Proof.
  destruct (resolve_download_error_paths fx_env (fx_downloader "aria2c" true) 12345 fx_world_empty)
    as (H0 & Hm & _ & _).
  split; [apply (Hm 404 None); [reflexivity | discriminate]|].
  exact H0.
Defined.

Lemma resolve_with_details_url_and_name_witness :
  resolve_with_details (mk_downloader (Some "tok") fx_dir "aria2c" 16 true) 12345 (Some 5)
    {| vd_id := Some 5;
       vd_files := Some [{| fi_primary := true; fi_name := None;
                            fi_downloadUrl := Some "https://example.org/files/model.safetensors" |}];
       vd_downloadUrl := None |} fx_world_empty
  = (Ok (12345, Some 5, "model.safetensors"%string,
         "https://example.org/files/model.safetensors?token=tok"%string), fx_world_empty) /\
  resolve_with_details (mk_downloader (Some "tok") fx_dir "aria2c" 16 true) 12345 (Some 5)
    {| vd_id := Some 5;
       vd_files := Some [{| fi_primary := true; fi_name := Some "x"; fi_downloadUrl := None |}];
       vd_downloadUrl := Some "" |} fx_world_empty
  = (Err (RuntimeError "No download URL returned by CivitAI"), fx_world_empty).
Proof.
  split.
  - pose proof (resolve_with_details_url_and_name (mk_downloader (Some "tok") fx_dir "aria2c" 16 true)
      12345 (Some 5)
      {| vd_id := Some 5;
         vd_files := Some [{| fi_primary := true; fi_name := None;
                              fi_downloadUrl := Some "https://example.org/files/model.safetensors" |}];
         vd_downloadUrl := None |} fx_world_empty _ [] eq_refl) as H.
    cbv zeta in H. destruct H as [_ H]. rewrite H by reflexivity. vm_compute. reflexivity.
  - pose proof (resolve_with_details_url_and_name (mk_downloader (Some "tok") fx_dir "aria2c" 16 true)
      12345 (Some 5)
      {| vd_id := Some 5;
         vd_files := Some [{| fi_primary := true; fi_name := Some "x"; fi_downloadUrl := None |}];
         vd_downloadUrl := Some "" |} fx_world_empty _ [] eq_refl) as H.
    cbv zeta in H. destruct H as [H _]. apply H. reflexivity.
Defined.

Lemma probe_filename_content_disposition_witness :
  fst (probe_filename fx_env_head fx_url fx_world_empty) = Ok (Some fx_cd_name) /\
  fst (probe_filename fx_env fx_url fx_world_empty) = Ok None.
Proof.
  destruct (probe_filename_content_disposition fx_env_head fx_url fx_world_empty) as (H1 & _ & _).
  destruct (probe_filename_content_disposition fx_env fx_url fx_world_empty) as (_ & _ & H3).
  split.
  - apply (H1 200 fx_cd_name fx_url); [lia | discriminate | reflexivity | reflexivity].
  - apply (H3 "unreachable"). reflexivity.
Defined.

Lemma record_entry_lists_file_witness :
  fst (record_entry fx_ledger 999 None "new.safetensors" "https://example.org/new") !! "12345"%string
    = fx_ledger !! "12345"%string /\
  exists e, find_version
              (default [] (fst (record_entry fx_ledger 999 None "new.safetensors" "https://example.org/new")
                             !! int_repr 999)) None = Some e /\
            existsb (file_has_name "new.safetensors") (default [] (vr_files e)) = true.
Proof.
  pose proof (record_entry_lists_file fx_ledger 999 None "new.safetensors" "https://example.org/new") as H.
  cbv zeta in H. destruct H as [Hk Hl]. split; [|exact Hl].
  apply Hk. vm_compute. discriminate.
Defined.


Lemma parse_lora_air_whitespace_witness :
  parse_lora_air "   " = Err (ValueError "Invalid model ID provided") /\
  parse_lora_air " 12 @ 34 " = Ok (12, Some 34).
Proof.
  destruct parse_lora_air_whitespace as [H1 H2].
  split.
  - apply H1; [discriminate | reflexivity].
  - exact (H2 " " " " " " " " 12 34 eq_refl eq_refl eq_refl eq_refl).
Defined.

Lemma download_and_record_blank_api_key_witness :
  download_and_record fx_env_token
    {| a_lora_air := "12345@67890"; a_lora_name := "none"; a_api_key := "  ";
       a_download_path := None; a_download_chunks := 16; a_fallback_downloader := "aria2c" |}
    12345 (Some 67890) ∅ fx_world_empty =
  download_and_record (without_env_token fx_env_token) (fx_args "aria2c")
    12345 (Some 67890) ∅ fx_world_empty.
Proof.
  apply (download_and_record_blank_api_key fx_env_token
    {| a_lora_air := "12345@67890"; a_lora_name := "none"; a_api_key := "  ";
       a_download_path := None; a_download_chunks := 16; a_fallback_downloader := "aria2c" |}).
  - discriminate.
  - reflexivity.
Defined.

Lemma download_and_record_saves_witness :
  exists history' w', download_and_record fx_env_tools_ok (fx_args "aria2c") 12345 (Some 67890) ∅
                        fx_world_empty = (Ok fx_file, w') /\
    head (w_log w') = Some (ESave history') /\
    exists e, find_version (default [] (history' !! int_repr 12345)) (Some 67890) = Some e /\
      existsb (file_has_name fx_file) (default [] (vr_files e)) = true.
Proof.
  set (a := fx_args "aria2c").
  set (w1 := snd (resolve_download_path fx_env_tools_ok (a_download_path a) fx_world_empty)).
  set (d := mk_downloader (if String.eqb (a_api_key a) "" then e_env_token fx_env_tools_ok
                           else Some (a_api_key a))
              fx_dir (a_fallback_downloader a) (a_download_chunks a)
              (negb (String.eqb (a_fallback_downloader a) "requests_only"))).
  assert (Hp : resolve_download_path fx_env_tools_ok (a_download_path a) fx_world_empty = (Ok fx_dir, w1))
    by (vm_compute; reflexivity).
  assert (Hd : download fx_env_tools_ok d 12345 (Some 67890) w1
               = (Ok (fx_file, fx_url), snd (download fx_env_tools_ok d 12345 (Some 67890) w1)))
    by (vm_compute; reflexivity).
  pose proof (download_and_record_saves fx_env_tools_ok a 12345 (Some 67890) ∅ fx_world_empty
                fx_dir w1 fx_file fx_url _ Hp Hd) as H.
  cbv zeta in H. destruct H as [_ H].
  destruct H as (h' & Heq & Hl).
  - intros (e & He & _). vm_compute in He. discriminate.
  - exists h'. eexists. split; [exact Heq|]. split; [reflexivity | exact Hl].
Defined.
